(** * Verification of the scrape-and-ask service (src/fg/mk.py)

    A shallow embedding of the FastAPI service: request validation
    ([URLRequest]), the scraping and cleanup step ([scrape_urls]), the
    corpus assembly against the hosted assistant platform
    ([create_assistant_and_vectorstore]), the question pipeline
    ([execute_rag_pipeline]) and the two endpoints.

    Python strings are modelled as [list ascii] ([text]); the regular
    expressions of the cleanup step and [str.replace] are modelled by a
    literal left-to-right search.  The remote services (crawler, assistant
    platform) are type classes; the program state carries the remote world,
    the local file system and the log of issued remote calls. *)

From Stdlib Require Import Ascii String List Arith Lia Bool.
Import ListNotations.
Set Warnings "-register-all".

Definition text := list ascii.

(** String literals, converted to [text]. *)
Definition txt (s : string) : text := list_ascii_of_string s.

(** ** Literal search *)

Fixpoint prefixb (p s : text) : bool :=
  match p, s with
  | [], _ => true
  | a :: p', b :: s' => Ascii.eqb a b && prefixb p' s'
  | _ :: _, [] => false
  end.

(** First occurrence of [pat] in [s]: [Some (before, after)] with
    [s = before ++ pat ++ after]. *)
Fixpoint find_sub (pat s : text) : option (text * text) :=
  if prefixb pat s then Some ([], skipn (length pat) s)
  else match s with
       | [] => None
       | c :: s' =>
           match find_sub pat s' with
           | Some (x, y) => Some (c :: x, y)
           | None => None
           end
       end.

(** [sep.join(items)] *)
Fixpoint join (sep : text) (items : list text) : text :=
  match items with
  | [] => []
  | [x] => x
  | x :: rest => x ++ sep ++ join sep rest
  end.

(** [list_to_string(my_list, separator=', ')] (lines 38-39), on a list of
    strings, for which [map(str, ...)] is the identity. *)
Definition list_to_string (my_list : list text) (separator : text) : text :=
  join separator my_list.

Definition list_to_string_default (my_list : list text) : text :=
  list_to_string my_list (txt ", ").

(** [str.replace(old, new)]: every non-overlapping occurrence, scanning
    left to right.  The scan is bounded by a fuel that [py_replace] sets
    above the length of the string; an empty [old] inserts [new] at every
    position, as Python does. *)
Fixpoint replace_go (fuel : nat) (old new s : text) : text :=
  match fuel with
  | 0 => s
  | S f =>
      match find_sub old s with
      | None => s
      | Some (x, y) => x ++ new ++ replace_go f old new y
      end
  end.

Definition py_replace (s old new : text) : text :=
  match old with
  | [] => new ++ flat_map (fun c => c :: new) s
  | _ => replace_go (S (length s)) old new s
  end.

(** [re.sub(A + ".*?" + B, "", s, flags=re.DOTALL)] for literal [A] and
    [B]: the leftmost match starts at the first occurrence of [A] and ends
    at the first occurrence of [B] after it; when no [B] follows the first
    [A], no later [A] can match either, and the string is left as is. *)
Fixpoint re_sub_go (fuel : nat) (A B s : text) : text :=
  match fuel with
  | 0 => s
  | S f =>
      match find_sub A s with
      | None => s
      | Some (pre, post) =>
          match find_sub B post with
          | None => s
          | Some (_, post') => pre ++ re_sub_go f A B post'
          end
      end
  end.

Definition re_sub_lazy (A B s : text) : text := re_sub_go (S (length s)) A B s.

(** [re.search(A + ".*?" + B, s, flags=re.DOTALL)]: the span of the
    leftmost match, as [Some (before, matched, after)]. *)
Definition re_search_lazy (A B s : text) : option (text * text * text) :=
  match find_sub A s with
  | None => None
  | Some (pre, post) =>
      match find_sub B post with
      | None => None
      | Some (mid, post') => Some (pre, A ++ mid ++ B, post')
      end
  end.

(** ** Reference behaviour of [str.replace] and [re.sub] *)

(** The reference behaviour of [s.replace(old, new)] for a non-empty
    [old]: the first occurrence of [old] is replaced, then the scan goes on
    after it; with no occurrence left the rest is kept. *)
Inductive replace_spec (old new : text) : text -> text -> Prop :=
| replace_none s :
    (forall x y, s <> x ++ old ++ y) -> replace_spec old new s s
| replace_step x y r :
    (forall x' y', x ++ old ++ y = x' ++ old ++ y' -> length x <= length x') ->
    replace_spec old new y r ->
    replace_spec old new (x ++ old ++ y) (x ++ new ++ r).

(** [s] contains a match of [A.*?B] (with [.] matching newlines). *)
Definition has_match (A B s : text) : Prop :=
  exists x y z, s = x ++ A ++ y ++ B ++ z.

(** The reference behaviour of [re.sub(A.*?B, "", s)]: the leftmost match
    (first [A], then the first [B] after it) is deleted, the text before it
    is kept as it is, and the substitution goes on after the match; when
    there is no match the text is kept whole. *)
Inductive sub_spec (A B : text) : text -> text -> Prop :=
| sub_none s : ~ has_match A B s -> sub_spec A B s s
| sub_step kept mid rest r :
    (forall x' y', kept ++ A ++ mid ++ B ++ rest = x' ++ A ++ y' ->
                   length kept <= length x') ->
    (forall x' y', mid ++ B ++ rest = x' ++ B ++ y' -> length mid <= length x') ->
    sub_spec A B rest r ->
    sub_spec A B (kept ++ A ++ mid ++ B ++ rest) (kept ++ r).

(** ** Exceptions, results and the service monad *)

Definition nl : text := [Ascii.ascii_of_nat 10].

(** Decimal rendering of a [nat], as in an f-string. *)
Fixpoint digits (fuel n : nat) (acc : text) : text :=
  match fuel with
  | 0 => acc
  | S f =>
      let acc' := Ascii.ascii_of_nat (48 + n mod 10) :: acc in
      if n <? 10 then acc' else digits f (n / 10) acc'
  end.

Definition show_nat (n : nat) : text := digits (S n) n [].

Inductive exn :=
| HTTPException (status_code : nat) (detail : text)
| RequestValidationError (detail : text)
| Exception (msg : text).

(** [str(e)]; for an [HTTPException] this is Starlette's
    [f"{self.status_code}: {self.detail}"]. *)
Definition str_exn (e : exn) : text :=
  match e with
  | HTTPException c d => show_nat c ++ txt ": " ++ d
  | RequestValidationError d => d
  | Exception m => m
  end.

Inductive res (A : Type) : Type :=
| Ok (a : A)
| Err (e : exn).
Arguments Ok {A} a.
Arguments Err {A} e.

(** State-and-exception monad over a program state [S]. *)
Definition M (S A : Type) : Type := S -> res A * S.

Definition ret {S A} (a : A) : M S A := fun st => (Ok a, st).

Definition bind {S A B} (m : M S A) (k : A -> M S B) : M S B :=
  fun st => match m st with
            | (Ok a, st') => k a st'
            | (Err e, st') => (Err e, st')
            end.

Definition raise {S A} (e : exn) : M S A := fun st => (Err e, st).

(** [try: m  except Exception as e: h(e)] *)
Definition try_except {S A} (m : M S A) (h : exn -> M S A) : M S A :=
  fun st => match m st with
            | (Err e, st') => h e st'
            | r => r
            end.

Notation "x <- m ;; k" := (bind m (fun x => k))
  (at level 61, m at next level, right associativity).

(** ** Remote interfaces *)

(** The remote calls the service can issue; the two delete operations are
    offered by the platform but never issued by the service. *)
Inductive call :=
| CrawlerWarmup
| CrawlerRun (url : text)
| AssistantsCreate
| VectorStoresCreate
| FileBatchesUploadAndPoll (vector_store_id : text)
| AssistantsUpdate (assistant_id : text) (vector_store_ids : list text)
| AssistantsRetrieve (assistant_id : text)
| VectorStoresRetrieve (vector_store_id : text)
| ThreadsCreate
| RunsCreateAndPoll (thread_id assistant_id : text)
| MessagesList (thread_id run_id : text)
| FilesRetrieve (file_id : text)
| AssistantsDelete (assistant_id : text)
| VectorStoresDelete (vector_store_id : text).

(** The calls that only read or query the platform: none of them
    creates, changes or deletes an assistant or a vector store. *)
Definition is_query_call (c : call) : bool :=
  match c with
  | AssistantsRetrieve _ | VectorStoresRetrieve _ | ThreadsCreate
  | RunsCreateAndPoll _ _ | MessagesList _ _ | FilesRetrieve _ => true
  | _ => false
  end.

Record assistant_params := {
  ap_name : text;
  ap_description : text;
  ap_instructions : text;
  ap_model : text;
  ap_tools : list text
}.

(** A citation annotation of an answer: its literal text and, for a
    [file_citation] annotation, the cited file id ([getattr(annotation,
    "file_citation", None)]). *)
Record annotation := {
  ann_text : text;
  file_citation : option text
}.

(** A block of [message.content]. *)
Inductive content_block :=
| TextBlock (value : text) (annotations : list annotation)
| OtherBlock.

Definition message := list content_block.

(** [crawl4ai.WebCrawler]: [warmup()] and [run(url).markdown]. *)
Class WebCrawler := {
  crawler_warmup : res unit;
  crawler_run : text -> res text
}.

(** The [OpenAI] client over a remote world [W]; each call answers with a
    result and the new remote world, or raises. *)
Class OpenAIClient (W : Type) := {
  assistants_create : assistant_params -> W -> res (text * W);
  vector_stores_create : text -> W -> res (text * W);
  upload_and_poll : text -> text -> W -> res (text * W);
  assistants_update : text -> list text -> W -> res (text * W);
  assistants_retrieve : text -> W -> res (text * W);
  vector_stores_retrieve : text -> W -> res (text * W);
  threads_create : text -> W -> res (text * W);
  runs_create_and_poll : text -> text -> W -> res (text * W);
  messages_list : text -> text -> W -> res (list message * W);
  files_retrieve : text -> W -> res (text * W)
}.

(** [tempfile.NamedTemporaryFile] picks the name of the new file from the
    current file system. *)
Class TempDir := {
  mktemp : list (text * text) -> text
}.

Fixpoint text_eqb (a b : text) : bool :=
  match a, b with
  | [], [] => true
  | x :: a', y :: b' => Ascii.eqb x y && text_eqb a' b'
  | _, _ => false
  end.

Fixpoint fs_lookup (p : text) (fs : list (text * text)) : option text :=
  match fs with
  | [] => None
  | (q, d) :: rest => if text_eqb q p then Some d else fs_lookup p rest
  end.

Definition fs_write (p d : text) (fs : list (text * text)) : list (text * text) :=
  (p, d) :: fs.

(** ** Request models *)

Inductive json :=
| JStr (s : text)
| JNum (n : nat)
| JBool (b : bool)
| JNull
| JList (items : list json).

Fixpoint json_strs (items : list json) : option (list text) :=
  match items with
  | [] => Some []
  | JStr s :: rest =>
      match json_strs rest with Some l => Some (s :: l) | None => None end
  | _ :: _ => None
  end.

(** Pydantic's validation of [Union[List[str], str]]: a JSON string is a
    [str], a JSON array of strings a [List[str]]. *)
Definition urls_type_validate (v : json) : res (list text + text) :=
  match v with
  | JStr s => Ok (inr s)
  | JList items =>
      match json_strs items with
      | Some l => Ok (inl l)
      | None => Err (RequestValidationError (txt "urls: Input should be a valid list or string"))
      end
  | _ => Err (RequestValidationError (txt "urls: Input should be a valid list or string"))
  end.

(** [URLRequest.ensure_list] *)
Definition ensure_list (v : list text + text) : list text :=
  match v with
  | inr s => [s]
  | inl l => l
  end.

Definition URLRequest_validate (urls : json) : res (list text) :=
  match urls_type_validate urls with
  | Ok v => Ok (ensure_list v)
  | Err e => Err e
  end.

(** ** Content cleanup *)

(** The two patterns of lines 46-49, each a literal opening, a lazy [.*?]
    and a literal closing ([\*] and [\.] are escaped literals). *)
Definition subscribe_open : text := txt "##  Subscribe to our emails".
Definition subscribe_close : text := txt "* Opens in a new window.".
Definition cart_open : text := txt "Skip to content".
Definition cart_close : text := txt "View cart Check out  Continue shopping".

Definition patterns : list (text * text) :=
  [ (subscribe_open, subscribe_close); (cart_open, cart_close) ].

(** [for pattern in patterns: content = re.sub(pattern, "", content, flags=re.DOTALL)] *)
Definition clean (content : text) : text :=
  fold_left (fun c (p : text * text) => re_sub_lazy (fst p) (snd p) c) patterns content.

Definition doc_separator : text := nl ++ nl ++ txt "---" ++ nl ++ nl.

(** [f"[{index}]"] *)
Definition marker (i : nat) : text := txt "[" ++ show_nat i ++ txt "]".
Arguments marker : simpl never.

Record upsert_response := {
  message_text : text;
  assistant_id : text;
  vector_store_id : text
}.

(** ** The service *)

Section Service.

Context {W : Type} `{client : OpenAIClient W} `{crawler : WebCrawler} `{tmp : TempDir}.

(** The program state: the remote world, the local file system and the log
    of the remote calls issued so far. *)
Record state := mkState {
  world : W;
  files : list (text * text);
  trace : list call
}.

Definition log (c : call) (st : state) : state :=
  mkState (world st) (files st) (trace st ++ [c]).

(** A call to the assistant platform. *)
Definition remote {A} (c : call) (op : W -> res (A * W)) : M state A :=
  fun st =>
    let st1 := log c st in
    match op (world st) with
    | Ok (a, w') => (Ok a, mkState w' (files st1) (trace st1))
    | Err e => (Err e, st1)
    end.

(** A call to the crawler. *)
Definition crawl {A} (c : call) (r : res A) : M state A :=
  fun st =>
    let st1 := log c st in
    match r with
    | Ok a => (Ok a, st1)
    | Err e => (Err e, st1)
    end.

(** [with tempfile.NamedTemporaryFile(mode='w', delete=False, suffix='.md')
    as temp_file: temp_file.write(d)]; returns [temp_file.name]. *)
Definition write_temp (d : text) : M state text :=
  fun st =>
    let p := mktemp (files st) in
    (Ok p, mkState (world st) (fs_write p d (files st)) (trace st)).

(** [open(file_path, "rb")] and reading it. *)
Definition read_file (p : text) : M state text :=
  fun st =>
    match fs_lookup p (files st) with
    | Some d => (Ok d, st)
    | None => (Err (Exception (txt "No such file or directory")), st)
    end.

(** The body of the loop of [scrape_urls] (lines 51-60). *)
Fixpoint scrape_each (urls : list text) : M state (list text) :=
  match urls with
  | [] => ret []
  | url :: rest =>
      content <- try_except
                   (md <- crawl (CrawlerRun url) (crawler_run url);;
                    ret (clean md))
                   (fun e => raise (HTTPException 500
                      (txt "Failed to scrape " ++ url ++ txt ": " ++ str_exn e)));;
      contents <- scrape_each rest;;
      ret (content :: contents)
  end.

(** [scrape_urls] (lines 42-68); the [print] calls are not modelled. *)
Definition scrape_urls (urls : list text) : M state text :=
  _ <- crawl CrawlerWarmup crawler_warmup;;
  scraped_contents <- scrape_each urls;;
  write_temp (join doc_separator scraped_contents).

Definition qa_params : assistant_params := {|
  ap_name := txt "Question-Answer Assistant";
  ap_description := txt "
    You are the question answer bot who answers the user
    question with precise response by using only the vectorstore's content
    ";
  ap_instructions := txt "
    Answer only from the stored content, in case if you couldn't
    find the answer say that you couldn't found the answer
    ";
  ap_model := txt "gpt-4o-mini";
  ap_tools := [txt "file_search"]
|}.

(** [create_assistant_and_vectorstore] (lines 71-104); returns the
    assistant id and the vector store id. *)
Definition create_assistant_and_vectorstore (file_path : text) : M state (text * text) :=
  assistant <- remote AssistantsCreate (assistants_create qa_params);;
  vector_store <- remote VectorStoresCreate (vector_stores_create (txt "Scraped Content"));;
  file_stream <- read_file file_path;;
  _ <- remote (FileBatchesUploadAndPoll vector_store)
              (upload_and_poll vector_store file_stream);;
  assistant' <- remote (AssistantsUpdate assistant [vector_store])
                       (assistants_update assistant [vector_store]);;
  ret (assistant', vector_store).

(** [messages[0].content[0].text] *)
Definition first_text (messages : list message) : M state (text * list annotation) :=
  match messages with
  | (TextBlock value annotations :: _) :: _ => ret (value, annotations)
  | (OtherBlock :: _) :: _ =>
      raise (Exception (txt "'ImageFileContentBlock' object has no attribute 'text'"))
  | _ => raise (Exception (txt "list index out of range"))
  end.

(** The loop of lines 128-132, from annotation number [index] on, with the
    current [message_content.value] and the citations gathered so far. *)
Fixpoint annotate_loop (index : nat) (annotations : list annotation)
    (value : text) (citations : list text) : M state (text * list text) :=
  match annotations with
  | [] => ret (value, citations)
  | annotation :: rest =>
      let value' := py_replace value (ann_text annotation) (marker index) in
      match file_citation annotation with
      | Some file_id =>
          filename <- remote (FilesRetrieve file_id) (files_retrieve file_id);;
          annotate_loop (S index) rest value'
            (citations ++ [marker index ++ txt " " ++ filename])
      | None => annotate_loop (S index) rest value' citations
      end
  end.

(** Lines 108-124: the question is run remotely and the answer fetched. *)
Definition fetch_answer (question assistant : text) : M state (text * list annotation) :=
  thread <- remote ThreadsCreate (threads_create question);;
  run <- remote (RunsCreateAndPoll thread assistant)
                (runs_create_and_poll thread assistant);;
  messages <- remote (MessagesList thread run) (messages_list thread run);;
  first_text messages.

(** [execute_rag_pipeline] (lines 107-135); [vector_store] is unused by the
    source as well. *)
Definition execute_rag_pipeline (question assistant vector_store : text) : M state text :=
  mc <- fetch_answer question assistant;;
  vc <- annotate_loop 0 (snd mc) (fst mc) [];;
  ret (fst vc ++ nl ++ nl ++ join nl (snd vc)).

(** The [/scrape_and_upsert] endpoint on a validated request. *)
Definition scrape_and_upsert (urls : list text) : M state upsert_response :=
  try_except
    (md_file_path <- scrape_urls urls;;
     av <- create_assistant_and_vectorstore md_file_path;;
     ret {| message_text := txt "Successfully scraped content from " ++
              show_nat (length urls) ++
              txt " URLs and created assistant and vector store.";
            assistant_id := fst av;
            vector_store_id := snd av |})
    (fun e => raise (HTTPException 500 (str_exn e))).

(** The [/scrape_and_upsert] endpoint on the [urls] field of the request
    body: pydantic validation first, then the handler. *)
Definition scrape_and_upsert_request (urls : json) : M state upsert_response :=
  match URLRequest_validate urls with
  | Ok l => scrape_and_upsert l
  | Err e => raise e
  end.

(** The [/ask_question] endpoint. *)
Definition ask_question (question assistant_id vector_store_id : text) : M state text :=
  try_except
    (assistant <- remote (AssistantsRetrieve assistant_id)
                         (assistants_retrieve assistant_id);;
     vector_store <- remote (VectorStoresRetrieve vector_store_id)
                            (vector_stores_retrieve vector_store_id);;
     execute_rag_pipeline question assistant vector_store)
    (fun e => raise (HTTPException 500 (str_exn e))).

(** The crawler returns a page for [url]. *)
Definition fetched (url : text) : bool :=
  match crawler_run url with Ok _ => true | Err _ => false end.

(** Where the corpus assembly can stop with [e], from the remote world
    [w] and call log [t] to the world [w'] and log [t']: at the creation of
    the assistant, at the creation of the vector store, at the upload of
    the document [d], or at the binding of the store to the assistant; the
    world is the one the successful calls before the failure produced. *)
Definition corpus_failure (d : text) (w : W) (t : list call) (e : exn) (w' : W)
    (t' : list call) : Prop :=
  (assistants_create qa_params w = Err e /\ w' = w /\ t' = t ++ [AssistantsCreate]) \/
  (exists a w1,
     assistants_create qa_params w = Ok (a, w1) /\
     vector_stores_create (txt "Scraped Content") w1 = Err e /\
     w' = w1 /\ t' = t ++ [AssistantsCreate; VectorStoresCreate]) \/
  (exists a w1 v w2,
     assistants_create qa_params w = Ok (a, w1) /\
     vector_stores_create (txt "Scraped Content") w1 = Ok (v, w2) /\
     upload_and_poll v d w2 = Err e /\
     w' = w2 /\ t' = t ++ [AssistantsCreate; VectorStoresCreate; FileBatchesUploadAndPoll v]) \/
  (exists a w1 v w2 status w3,
     assistants_create qa_params w = Ok (a, w1) /\
     vector_stores_create (txt "Scraped Content") w1 = Ok (v, w2) /\
     upload_and_poll v d w2 = Ok (status, w3) /\
     assistants_update a [v] w3 = Err e /\
     w' = w3 /\
     t' = t ++ [AssistantsCreate; VectorStoresCreate; FileBatchesUploadAndPoll v;
                AssistantsUpdate a [v]]).

End Service.

(** [m] only reads or queries the platform, in any outcome: the calls it
    adds to the log are all [is_query_call], and it writes no file. *)
Definition queries_only {W A : Type} (m : M (@state W) A) : Prop :=
  forall st r st', m st = (r, st') ->
    exists new, trace st' = trace st ++ new /\ forallb is_query_call new = true /\
                files st' = files st.

(** ** Reference descriptions of the answer rewriting *)

Definition nonempty (t : text) : bool :=
  match t with [] => false | _ => true end.

Definition has_file_citation (a : annotation) : bool :=
  match file_citation a with Some _ => true | None => false end.

Definition count_cited (annotations : list annotation) : nat :=
  length (filter has_file_citation annotations).

(** The annotations that carry a [file_citation], with their index. *)
Fixpoint cited (index : nat) (annotations : list annotation) : list (nat * text) :=
  match annotations with
  | [] => []
  | a :: rest =>
      match file_citation a with
      | Some fid => (index, fid) :: cited (S index) rest
      | None => cited (S index) rest
      end
  end.

(** The reference lines ["[j] filename"] for the cited annotations and
    their resolved file names. *)
Definition reference_lines (cs : list (nat * text)) (filenames : list text) : list text :=
  map (fun cf => marker (fst (fst cf)) ++ txt " " ++ snd cf) (combine cs filenames).

(** For annotation number [index] on, each annotation's text is replaced
    in the current value as [str.replace] does ([replace_spec]). *)
Inductive markers_spec : nat -> list annotation -> text -> text -> Prop :=
| markers_nil index value : markers_spec index [] value value
| markers_cons index a rest value value1 value' :
    replace_spec (ann_text a) (marker index) value value1 ->
    markers_spec (S index) rest value1 value' ->
    markers_spec index (a :: rest) value value'.

(** A raw answer split at its annotation spans: [s0 ++ spans_text pairs],
    each pair an annotation and the text that follows its span. *)
Definition spans_text (pairs : list (annotation * text)) : text :=
  concat (map (fun p => ann_text (fst p) ++ snd p) pairs).

(** The same answer with the spans replaced by [[0]], [[1]], ... *)
Fixpoint marked (index : nat) (pairs : list (annotation * text)) : text :=
  match pairs with
  | [] => []
  | (a, s) :: rest => marker index ++ s ++ marked (S index) rest
  end.

(** [t] starts nowhere in [w] but at position [n]. *)
Definition only_at (t w : text) (n : nat) : bool :=
  forallb (fun j => Nat.eqb j n || negb (prefixb t (skipn j w))) (seq 0 (S (length w))).

(** Each annotation text is non-empty and, when its turn comes, occurs in
    the partially rewritten answer only at its own span. *)
Fixpoint spans_unique (prefix : text) (index : nat) (pairs : list (annotation * text)) : bool :=
  match pairs with
  | [] => true
  | (a, s) :: rest =>
      nonempty (ann_text a) &&
      only_at (ann_text a) (prefix ++ ann_text a ++ s ++ spans_text rest) (length prefix) &&
      spans_unique (prefix ++ marker index ++ s) (S index) rest
  end.

(** ** A mock platform, for running the service on concrete inputs *)

(** The remote world counts the resources created so far. *)
Definition mock_client (msgs : list message) (upload_ok : bool) : OpenAIClient nat := {|
  assistants_create := fun _ w => Ok (txt "asst_" ++ show_nat w, S w);
  vector_stores_create := fun _ w => Ok (txt "vs_" ++ show_nat w, S w);
  upload_and_poll := fun _ _ w =>
    if upload_ok then Ok (txt "completed", w)
    else Err (Exception (txt "upload failed"));
  assistants_update := fun a _ w => Ok (a, w);
  assistants_retrieve := fun a w => Ok (a, w);
  vector_stores_retrieve := fun v w => Ok (v, w);
  threads_create := fun _ w => Ok (txt "thread_" ++ show_nat w, S w);
  runs_create_and_poll := fun _ _ w => Ok (txt "run_0", w);
  messages_list := fun _ _ w => Ok (msgs, w);
  files_retrieve := fun fid w => Ok (fid ++ txt ".pdf", w)
|}.

Fixpoint page_of (url : text) (pages : list (text * text)) : res text :=
  match pages with
  | [] => Err (Exception (txt "404 Not Found"))
  | (u, md) :: rest => if text_eqb u url then Ok md else page_of url rest
  end.

Definition mock_crawler (pages : list (text * text)) : WebCrawler := {|
  crawler_warmup := Ok tt;
  crawler_run := fun url => page_of url pages
|}.

Definition mock_tmp : TempDir := {|
  mktemp := fun fs => txt "/tmp/tmp" ++ show_nat (length fs) ++ txt ".md"
|}.

Definition st0 : state (W := nat) := mkState 0 [] [].

(** Demo inputs. *)
Definition url_a : text := txt "https://shop.example/a".
Definition url_b : text := txt "https://shop.example/b".
Definition url_c : text := txt "https://shop.example/missing".

Definition demo_crawler : WebCrawler :=
  mock_crawler [(url_a, txt "Alpha"); (url_b, txt "Beta")].

Definition cite (t fid : text) : annotation :=
  {| ann_text := t; file_citation := Some fid |}.

Definition path_note (t : text) : annotation :=
  {| ann_text := t; file_citation := None |}.

(** Two annotations with the same text, and one without a [file_citation]. *)
Definition demo_annotations : list annotation :=
  [cite (txt "X") (txt "f1"); cite (txt "X") (txt "f2"); path_note (txt "Y")].

Definition demo_client : OpenAIClient nat :=
  mock_client [[TextBlock (txt "A X B X C Y") demo_annotations]] true.

(** An answer whose annotation texts are distinct and occur once each. *)
Definition unique_prefix : text := txt "See ".

Definition unique_pairs : list (annotation * text) :=
  [(cite (txt "<1>") (txt "f1"), txt " and "); (path_note (txt "<2>"), txt ".")].

Definition unique_client : OpenAIClient nat :=
  mock_client [[TextBlock (unique_prefix ++ spans_text unique_pairs)
                          (map fst unique_pairs)]] true.

Definition plain_client : OpenAIClient nat :=
  mock_client [[TextBlock (txt "Plain answer") []]] true.

(** A platform whose document upload fails. *)
Definition failing_client : OpenAIClient nat := mock_client [] false.

(** A platform that answers with a cited file it cannot find. *)
Definition missing_file_client : OpenAIClient nat := {|
  assistants_create := fun _ w => Ok (txt "asst_" ++ show_nat w, S w);
  vector_stores_create := fun _ w => Ok (txt "vs_" ++ show_nat w, S w);
  upload_and_poll := fun _ _ w => Ok (txt "completed", w);
  assistants_update := fun a _ w => Ok (a, w);
  assistants_retrieve := fun a w => Ok (a, w);
  vector_stores_retrieve := fun v w => Ok (v, w);
  threads_create := fun _ w => Ok (txt "thread_" ++ show_nat w, S w);
  runs_create_and_poll := fun _ _ w => Ok (txt "run_0", w);
  messages_list := fun _ _ w =>
    Ok ([[TextBlock (txt "A X B") [cite (txt "X") (txt "f1")]]], w);
  files_retrieve := fun _ _ => Err (Exception (txt "Error code: 404"))
|}.

(** ** Properties of the search *)

Lemma prefixb_spec (p s : text) :
  prefixb p s = true <-> exists r, s = p ++ r.
Proof.
  revert s; induction p as [|a p IH]; intros s; simpl.
  - split; eauto.
  - destruct s as [|b s].
    + split; [discriminate|]. intros [r H]; discriminate.
    + rewrite andb_true_iff, Ascii.eqb_eq, IH. split.
      * intros [-> [r ->]]; eauto.
      * intros [r H]; inversion H; subst; eauto.
Qed.

Lemma prefixb_app (p r : text) : prefixb p (p ++ r) = true.
Proof. apply prefixb_spec; eauto. Qed.

Lemma find_sub_some (pat s x y : text) :
  find_sub pat s = Some (x, y) -> s = x ++ pat ++ y.
Proof.
  revert x y; induction s as [|c s IH]; intros x y H; simpl in H;
    destruct (prefixb pat _) eqn:Hp.
  - inversion H; subst. apply prefixb_spec in Hp as [r Hr].
    destruct pat; [reflexivity|discriminate].
  - discriminate.
  - inversion H; subst. apply prefixb_spec in Hp as [r Hr].
    rewrite Hr, skipn_app, Nat.sub_diag, skipn_all; reflexivity.
  - destruct (find_sub pat s) as [[x' y']|] eqn:E; [|discriminate].
    inversion H; subst. simpl. f_equal. apply IH; reflexivity.
Qed.

Lemma find_sub_first (pat s x y : text) :
  find_sub pat s = Some (x, y) ->
  forall x' y', s = x' ++ pat ++ y' -> length x <= length x'.
Proof.
  revert x y; induction s as [|c s IH]; intros x y H x' y' E; simpl in H;
    destruct (prefixb pat _) eqn:Hp.
  - inversion H; subst; simpl; lia.
  - discriminate.
  - inversion H; subst; simpl; lia.
  - destruct (find_sub pat s) as [[x1 y1]|] eqn:F; [|discriminate].
    inversion H; subst. destruct x' as [|c' x'].
    + simpl in E. rewrite E, prefixb_app in Hp. discriminate.
    + inversion E; subst. simpl. specialize (IH _ _ eq_refl x' y' eq_refl). lia.
Qed.

Lemma find_sub_none (pat s : text) :
  find_sub pat s = None -> forall x y, s <> x ++ pat ++ y.
Proof.
  induction s as [|c s IH]; intros H x y E; simpl in H;
    destruct (prefixb pat _) eqn:Hp; try discriminate.
  - destruct x; [|discriminate]. destruct pat; [discriminate|].
    simpl in E; discriminate.
  - destruct x as [|c' x].
    + simpl in E. rewrite E, prefixb_app in Hp. discriminate.
    + destruct (find_sub pat s) as [[? ?]|]; [discriminate|].
      inversion E; subst. eapply IH; eauto.
Qed.

Lemma find_sub_complete (pat s : text) :
  find_sub pat s = None <-> forall x y, s <> x ++ pat ++ y.
Proof.
  split; [apply find_sub_none|].
  intros H. destruct (find_sub pat s) as [[x y]|] eqn:F; [|reflexivity].
  exfalso. eapply H. apply find_sub_some; eauto.
Qed.

Lemma app_split_le {A : Type} (l1 r1 l2 r2 : list A) :
  length l1 <= length l2 -> l1 ++ r1 = l2 ++ r2 ->
  exists m, l2 = l1 ++ m /\ r1 = m ++ r2.
Proof.
  intros Hl E. apply app_eq_app in E as [m [[-> ->]|[-> ->]]].
  - rewrite length_app in Hl. destruct m; [|simpl in Hl; lia].
    exists []. rewrite !app_nil_r. auto.
  - exists m; auto.
Qed.

(** *** [str.replace] *)

Lemma replace_go_spec (old new : text) :
  old <> [] -> forall fuel s, length s < fuel ->
  replace_spec old new s (replace_go fuel old new s).
Proof.
  intros Hold fuel; induction fuel as [|f IH]; intros s Hs; [lia|]. simpl.
  destruct (find_sub old s) as [[x y]|] eqn:F.
  - pose proof (find_sub_some _ _ _ _ F) as ->.
    apply replace_step.
    + intros x' y' E. eapply find_sub_first; [exact F|exact E].
    + apply IH. rewrite !length_app in Hs.
      destruct old; [congruence|simpl in Hs; lia].
  - apply replace_none. apply find_sub_none; exact F.
Qed.

Lemma py_replace_spec (s old new : text) :
  old <> [] -> replace_spec old new s (py_replace s old new).
Proof.
  intros Hold. unfold py_replace. destruct old as [|a old]; [congruence|].
  apply replace_go_spec; [assumption|lia].
Qed.

(** When [old] occurs in [x ++ old ++ y] only at [x], the replacement is
    exactly at that span. *)
Lemma replace_go_step (f : nat) (old new s : text) :
  replace_go (S f) old new s =
  match find_sub old s with
  | None => s
  | Some (x, y) => x ++ new ++ replace_go f old new y
  end.
Proof. reflexivity. Qed.

Lemma py_replace_unique (x y old new : text) :
  old <> [] ->
  (forall x' y', x ++ old ++ y = x' ++ old ++ y' -> x' = x) ->
  py_replace (x ++ old ++ y) old new = x ++ new ++ y.
Proof.
  intros Hold Huniq.
  destruct old as [|a old']; [congruence|]. set (old := a :: old') in *.
  unfold py_replace. fold old.
  remember (S (length (x ++ old ++ y))) as fuel.
  destruct fuel as [|f]; [discriminate|].
  rewrite replace_go_step.
  destruct (find_sub old (x ++ old ++ y)) as [[x1 y1]|] eqn:F.
  - pose proof (find_sub_some _ _ _ _ F) as E.
    pose proof (Huniq _ _ E) as ->.
    apply app_inv_head in E. apply app_inv_head in E. subst y1.
    destruct f as [|f]; [rewrite !length_app in Heqfuel; simpl in Heqfuel; lia|].
    rewrite replace_go_step. destruct (find_sub old y) as [[x2 y2]|] eqn:G.
    + exfalso. apply find_sub_some in G. subst y.
      specialize (Huniq (x ++ old ++ x2) y2).
      assert (H : x ++ old ++ x2 = x) by (apply Huniq; rewrite <- !app_assoc; reflexivity).
      apply (f_equal (@length ascii)) in H. rewrite !length_app in H.
      simpl in H. lia.
    + reflexivity.
  - exfalso. eapply find_sub_none; [exact F|reflexivity].
Qed.

(** *** [re.sub] *)

Lemma no_match_of_search (A B s : text) :
  match find_sub A s with
  | None => True
  | Some (_, post) => find_sub B post = None
  end -> ~ has_match A B s.
Proof.
  intros H [x [y [z E]]].
  destruct (find_sub A s) as [[pre post]|] eqn:F.
  - pose proof (find_sub_first _ _ _ _ F _ _ E) as Hle.
    apply find_sub_some in F. rewrite F in E.
    assert (E' : (pre ++ A) ++ post = (x ++ A) ++ (y ++ B ++ z))
      by (rewrite <- !app_assoc; exact E).
    apply app_split_le in E' as [m [_ Em]];
      [|rewrite !length_app; lia].
    rewrite app_assoc in Em.
    eapply find_sub_none; [exact H|exact Em].
  - eapply find_sub_none; [exact F|exact E].
Qed.

Lemma re_search_none (A B s : text) :
  re_search_lazy A B s = None -> ~ has_match A B s.
Proof.
  unfold re_search_lazy. intros H. apply no_match_of_search.
  destruct (find_sub A s) as [[pre post]|]; [|exact I].
  destruct (find_sub B post) as [[? ?]|]; [discriminate|reflexivity].
Qed.

Lemma re_sub_go_spec (A B : text) :
  A <> [] -> forall fuel s, length s < fuel ->
  sub_spec A B s (re_sub_go fuel A B s).
Proof.
  intros HA fuel; induction fuel as [|f IH]; intros s Hs; [lia|]. simpl.
  destruct (find_sub A s) as [[pre post]|] eqn:F.
  - destruct (find_sub B post) as [[mid post']|] eqn:G.
    + pose proof (find_sub_some _ _ _ _ F) as Es.
      pose proof (find_sub_some _ _ _ _ G) as Ep.
      subst post. rewrite Es. apply sub_step.
      * intros x' y' E. eapply find_sub_first; [exact F|]. rewrite Es; exact E.
      * intros x' y' E. eapply find_sub_first; [exact G|exact E].
      * apply IH. rewrite Es, !length_app in Hs.
        destruct A; [congruence|simpl in Hs; lia].
    + apply sub_none. apply no_match_of_search. rewrite F. exact G.
  - apply sub_none. apply no_match_of_search. rewrite F. exact I.
Qed.

Lemma re_sub_lazy_spec (A B s : text) :
  A <> [] -> sub_spec A B s (re_sub_lazy A B s).
Proof. intros HA. apply re_sub_go_spec; [assumption|lia]. Qed.

Lemma re_sub_lazy_no_match (A B s : text) :
  A <> [] -> ~ has_match A B s -> re_sub_lazy A B s = s.
Proof.
  intros HA Hn. pose proof (re_sub_lazy_spec A B s HA) as H.
  remember (re_sub_lazy A B s) as r eqn:Er. clear Er.
  destruct H as [s' _|kept mid rest r' _ _ _]; [reflexivity|].
  exfalso. apply Hn. exists kept, mid, rest. reflexivity.
Qed.

(** ** Properties of the service *)

Lemma text_eqb_refl (a : text) : text_eqb a a = true.
Proof. induction a; simpl; [reflexivity|]. rewrite Ascii.eqb_refl; assumption. Qed.

Lemma fs_lookup_write (p d : text) (fs : list (text * text)) :
  fs_lookup p (fs_write p d fs) = Some d.
Proof. simpl. rewrite text_eqb_refl. reflexivity. Qed.

Lemma subscribe_open_nonempty : subscribe_open <> [].
Proof. discriminate. Qed.

Lemma cart_open_nonempty : cart_open <> [].
Proof. discriminate. Qed.

Lemma clean_unfold (s : text) :
  clean s = re_sub_lazy cart_open cart_close (re_sub_lazy subscribe_open subscribe_close s).
Proof. reflexivity. Qed.

Lemma bind_ok {S A B} (m : M S A) (k : A -> M S B) (st : S) (a : A) (st' : S) :
  m st = (Ok a, st') -> bind m k st = k a st'.
Proof. unfold bind. intros ->. reflexivity. Qed.

Lemma bind_err {S A B} (m : M S A) (k : A -> M S B) (st : S) (e : exn) (st' : S) :
  m st = (Err e, st') -> bind m k st = (Err e, st').
Proof. unfold bind. intros ->. reflexivity. Qed.

Lemma skipn_app_length {A : Type} (l r : list A) : skipn (length l) (l ++ r) = r.
Proof. induction l; simpl; auto. Qed.

Lemma only_at_sound (t P y : text) :
  only_at t (P ++ t ++ y) (length P) = true ->
  forall x' y', P ++ t ++ y = x' ++ t ++ y' -> x' = P.
Proof.
  unfold only_at. intros H x' y' E. rewrite forallb_forall in H.
  specialize (H (length x')). rewrite in_seq in H.
  assert (Hlen : length x' <= length (P ++ t ++ y))
    by (rewrite E, length_app; lia).
  specialize (H ltac:(lia)).
  rewrite E, skipn_app_length, prefixb_app in H. simpl in H.
  rewrite orb_false_r, Nat.eqb_eq in H.
  apply app_split_le in E as [m [-> _]]; [|lia].
  rewrite length_app in H. destruct m; [apply app_nil_r|simpl in H; lia].
Qed.

Lemma cited_length (index : nat) (annotations : list annotation) :
  length (cited index annotations) = count_cited annotations.
Proof.
  unfold count_cited. revert index. induction annotations as [|a rest IH];
    intros index; [reflexivity|]. simpl. unfold has_file_citation.
  destruct (file_citation a); simpl; rewrite IH; reflexivity.
Qed.

Lemma reference_lines_length (cs : list (nat * text)) (filenames : list text) :
  length cs = length filenames ->
  length (reference_lines cs filenames) = length cs.
Proof.
  intros H. unfold reference_lines. rewrite length_map, length_combine, H.
  apply Nat.min_id.
Qed.

Section Properties.

Context {W : Type} `{client : OpenAIClient W} `{crawler : WebCrawler} `{tmp : TempDir}.

Lemma scrape_each_ok (urls : list text) (st st' : @state W) (cs : list text) :
  scrape_each urls st = (Ok cs, st') ->
  exists mds,
    Forall2 (fun url (md : text) => crawler_run url = Ok md) urls mds /\
    cs = map clean mds /\
    world st' = world st /\ files st' = files st /\
    trace st' = trace st ++ map CrawlerRun urls.
Proof.
  revert st cs; induction urls as [|url urls IH]; intros st cs H.
  - simpl in H. inversion H; subst. exists [].
    rewrite app_nil_r. repeat split; constructor.
  - simpl in H. unfold bind, try_except, crawl, ret, raise in H.
    destruct (crawler_run url) as [md|e] eqn:Hrun; [|discriminate].
    destruct (scrape_each urls (log (CrawlerRun url) st)) as [[cs'|e] st2] eqn:Hrest;
      [|discriminate].
    inversion H; subst. apply IH in Hrest as [mds [Hf [-> [Hw [Hfs Ht]]]]].
    exists (md :: mds). simpl in *. repeat split.
    + constructor; assumption.
    + exact Hw.
    + exact Hfs.
    + rewrite Ht, <- app_assoc. reflexivity.
Qed.

Lemma scrape_each_fail (pre : list text) (url : text) (post : list text)
    (e : exn) (st : @state W) :
  forallb fetched pre = true ->
  crawler_run url = Err e ->
  scrape_each (pre ++ url :: post) st =
    (Err (HTTPException 500 (txt "Failed to scrape " ++ url ++ txt ": " ++ str_exn e)),
     mkState (world st) (files st) (trace st ++ map CrawlerRun (pre ++ [url]))).
Proof.
  intros Hpre Hurl. revert st; induction pre as [|u pre IH]; intros st.
  - simpl. unfold bind, try_except, crawl, raise. rewrite Hurl. reflexivity.
  - simpl in Hpre. apply andb_true_iff in Hpre as [Hu Hpre].
    unfold fetched in Hu. destruct (crawler_run u) as [md|e'] eqn:Hu'; [|discriminate].
    specialize (IH Hpre). simpl. rewrite (bind_ok _ _ _ (clean md) (log (CrawlerRun u) st));
      [|unfold try_except, bind, crawl, ret; rewrite Hu'; reflexivity].
    rewrite (bind_err _ _ _ _ _ (IH _)). simpl. rewrite <- app_assoc. reflexivity.
Qed.

(** C4: a request whose [urls] is a single string [s] is validated to the
    same URL sequence [[s]] as the request whose [urls] is the list [[s]],
    and the acquire-and-index endpoint behaves identically on the two. *)
Theorem ensure_list_single_string (s : text) :
  URLRequest_validate (JStr s) = URLRequest_validate (JList [JStr s]) /\
  URLRequest_validate (JStr s) = Ok [s] /\
  scrape_and_upsert_request (JStr s) = scrape_and_upsert_request (JList [JStr s]).
Proof. repeat split. Qed.

(** C5: the cleanup step applies the two patterns in turn, and each pass
    deletes exactly the leftmost-first lazy matches of its pattern, keeping
    the text around them as it is ([sub_spec]); a text in which neither
    pattern has a match is returned unchanged. *)
Theorem clean_removes_matches (s : text) :
  clean s = re_sub_lazy cart_open cart_close (re_sub_lazy subscribe_open subscribe_close s) /\
  sub_spec subscribe_open subscribe_close s (re_sub_lazy subscribe_open subscribe_close s) /\
  sub_spec cart_open cart_close (re_sub_lazy subscribe_open subscribe_close s) (clean s) /\
  (re_search_lazy subscribe_open subscribe_close s = None ->
   re_search_lazy cart_open cart_close s = None ->
   clean s = s).
Proof.
  split; [apply clean_unfold|]. split; [apply re_sub_lazy_spec, subscribe_open_nonempty|].
  split; [rewrite clean_unfold; apply re_sub_lazy_spec, cart_open_nonempty|].
  intros H1 H2. rewrite clean_unfold.
  rewrite (re_sub_lazy_no_match _ _ _ subscribe_open_nonempty (re_search_none _ _ _ H1)).
  apply re_sub_lazy_no_match; [apply cart_open_nonempty|]. apply re_search_none; exact H2.
Qed.

Lemma scrape_urls_ok (urls : list text) (st st' : @state W) (p : text) :
  scrape_urls urls st = (Ok p, st') ->
  exists mds,
    Forall2 (fun url (md : text) => crawler_run url = Ok md) urls mds /\
    p = mktemp (files st) /\
    fs_lookup p (files st') = Some (join doc_separator (map clean mds)) /\
    world st' = world st.
Proof.
  unfold scrape_urls, bind, crawl, write_temp. intros H.
  destruct crawler_warmup as [u|e]; [|discriminate].
  destruct (scrape_each urls (log CrawlerWarmup st)) as [[cs|e] st2] eqn:Hs;
    [|discriminate].
  apply scrape_each_ok in Hs as [mds [Hf [-> [Hw [Hfs _]]]]].
  inversion H; subst. exists mds. simpl in *. repeat split.
  - exact Hf.
  - rewrite Hfs. reflexivity.
  - apply fs_lookup_write.
  - exact Hw.
Qed.

(** C2: when [scrape_urls] succeeds, every URL was fetched in order, and the
    file at the returned (fresh temporary) path holds the cleaned pages
    joined by ["\n\n---\n\n"] in input order. *)
Theorem scrape_urls_document (urls : list text) (st st' : @state W) (p : text) :
  scrape_urls urls st = (Ok p, st') ->
  exists mds,
    Forall2 (fun url (md : text) => crawler_run url = Ok md) urls mds /\
    p = mktemp (files st) /\
    fs_lookup p (files st') = Some (join doc_separator (map clean mds)) /\
    world st' = world st.
Proof. apply scrape_urls_ok. Qed.

(** C3: when the fetch of a URL fails (the crawler is warmed up and the
    URLs before it were fetched), [scrape_urls] raises an [HTTPException]
    500 naming that URL and writes no file, and the endpoint fails with it
    without any call to the assistant platform: the remote world and the
    file system are unchanged and only crawler calls were issued. *)
Theorem scrape_fail_fast (pre : list text) (url : text) (post : list text)
    (e : exn) (st : @state W) :
  crawler_warmup = Ok tt ->
  forallb fetched pre = true ->
  crawler_run url = Err e ->
  scrape_urls (pre ++ url :: post) st =
    (Err (HTTPException 500 (txt "Failed to scrape " ++ url ++ txt ": " ++ str_exn e)),
     mkState (world st) (files st)
       (trace st ++ CrawlerWarmup :: map CrawlerRun (pre ++ [url]))) /\
  scrape_and_upsert (pre ++ url :: post) st =
    (Err (HTTPException 500
       (str_exn (HTTPException 500 (txt "Failed to scrape " ++ url ++ txt ": " ++ str_exn e)))),
     mkState (world st) (files st)
       (trace st ++ CrawlerWarmup :: map CrawlerRun (pre ++ [url]))).
Proof.
  intros Hw Hpre Hurl.
  assert (Hs : scrape_urls (pre ++ url :: post) st =
    (Err (HTTPException 500 (txt "Failed to scrape " ++ url ++ txt ": " ++ str_exn e)),
     mkState (world st) (files st)
       (trace st ++ CrawlerWarmup :: map CrawlerRun (pre ++ [url])))).
  { unfold scrape_urls, bind at 1, crawl. rewrite Hw.
    unfold bind at 1. rewrite (scrape_each_fail pre url post e _ Hpre Hurl).
    simpl. rewrite <- app_assoc. reflexivity. }
  split; [exact Hs|].
  unfold scrape_and_upsert, try_except, bind at 1. rewrite Hs. reflexivity.
Qed.

Lemma fetch_then_annotate (question assistant vector_store : text)
    (st st1 : @state W) (value : text) (annotations : list annotation) :
  fetch_answer question assistant st = (Ok (value, annotations), st1) ->
  execute_rag_pipeline question assistant vector_store st =
    match annotate_loop 0 annotations value [] st1 with
    | (Ok vc, st2) => (Ok (fst vc ++ nl ++ nl ++ join nl (snd vc)), st2)
    | (Err e, st2) => (Err e, st2)
    end.
Proof.
  intros H. unfold execute_rag_pipeline. rewrite (bind_ok _ _ _ _ _ H). simpl.
  unfold bind. destruct (annotate_loop 0 annotations value [] st1) as [[vc|e] st2];
    reflexivity.
Qed.

Lemma annotate_loop_ok (index : nat) (annotations : list annotation)
    (value : text) (citations : list text) (st st' : @state W)
    (value' : text) (citations' : list text) :
  annotate_loop index annotations value citations st = (Ok (value', citations'), st') ->
  exists filenames,
    Forall2 (fun c fn => exists w w' : W, files_retrieve (snd c) w = Ok (fn, w'))
      (cited index annotations) filenames /\
    citations' = citations ++ reference_lines (cited index annotations) filenames /\
    (forallb (fun a => nonempty (ann_text a)) annotations = true ->
     markers_spec index annotations value value').
Proof.
  intros H. revert index value citations st H.
  induction annotations as [|a rest IH]; intros index value citations st H.
  - simpl in H. inversion H; subst. exists []. repeat split.
    + constructor.
    + rewrite app_nil_r. reflexivity.
    + intros _. constructor.
  - simpl in H. destruct (file_citation a) as [fid|] eqn:Hf.
    + unfold bind, remote in H.
      destruct (files_retrieve fid (world st)) as [[fn w']|e] eqn:Hr; [|discriminate].
      apply IH in H as [fns [Hfa [Hc Hm]]].
      exists (fn :: fns). simpl. rewrite Hf. repeat split.
      * constructor; [exists (world st), w'; exact Hr|exact Hfa].
      * rewrite Hc, <- app_assoc. reflexivity.
      * intros Hne. simpl in Hne. apply andb_true_iff in Hne as [Ha Hrest].
        econstructor; [|apply Hm, Hrest].
        apply py_replace_spec. destruct (ann_text a); [discriminate|congruence].
    + apply IH in H as [fns [Hfa [Hc Hm]]].
      exists fns. simpl. rewrite Hf. repeat split.
      * exact Hfa.
      * exact Hc.
      * intros Hne. simpl in Hne. apply andb_true_iff in Hne as [Ha Hrest].
        econstructor; [|apply Hm, Hrest].
        apply py_replace_spec. destruct (ann_text a); [discriminate|congruence].
Qed.

(** C6: when the fetched answer has no annotation, [execute_rag_pipeline]
    returns the raw answer text unchanged, followed by the ["\n\n"] of an
    empty reference section, and issues no further remote call. *)
Theorem rag_no_annotations_verbatim (question assistant vector_store : text)
    (st st1 : @state W) (value : text) :
  fetch_answer question assistant st = (Ok (value, []), st1) ->
  execute_rag_pipeline question assistant vector_store st = (Ok (value ++ nl ++ nl), st1).
Proof.
  intros H. rewrite (fetch_then_annotate _ _ vector_store _ _ _ _ H). reflexivity.
Qed.

(** C9: every annotation's text is replaced by its marker, but a reference
    line is added only for the annotations with a [file_citation]: the
    answer is the rewritten text, ["\n\n"] and the lines ["[j] filename"]
    for the cited annotations [j] only, so there are [count_cited]
    lines, at most the number of annotations. *)
Theorem rag_reference_lines_cited_only (question assistant vector_store : text)
    (st st1 st' : @state W) (value : text) (annotations : list annotation) (answer : text) :
  fetch_answer question assistant st = (Ok (value, annotations), st1) ->
  execute_rag_pipeline question assistant vector_store st = (Ok answer, st') ->
  exists body filenames,
    answer = body ++ nl ++ nl ++ join nl (reference_lines (cited 0 annotations) filenames) /\
    (forallb (fun a => nonempty (ann_text a)) annotations = true ->
     markers_spec 0 annotations value body) /\
    Forall2 (fun c fn => exists w w' : W, files_retrieve (snd c) w = Ok (fn, w'))
      (cited 0 annotations) filenames /\
    length (reference_lines (cited 0 annotations) filenames) = count_cited annotations /\
    count_cited annotations <= length annotations.
Proof.
  intros Hf He. rewrite (fetch_then_annotate _ _ vector_store _ _ _ _ Hf) in He.
  destruct (annotate_loop 0 annotations value [] st1) as [[[body cs]|e] st2] eqn:Hl;
    [|discriminate].
  inversion He; subst. clear He.
  apply annotate_loop_ok in Hl as [fns [Hfa [Hc Hm]]].
  exists body, fns. simpl in Hc. subst cs. repeat split; try assumption.
  - rewrite reference_lines_length; [apply cited_length|exact (Forall2_length Hfa)].
  - unfold count_cited. apply filter_length_le.
Qed.

(** C10: the marker substitution is a global literal replacement: for each
    index [i] in turn, every non-overlapping occurrence of annotation [i]'s
    text in the current, already partly rewritten, answer becomes [[i]]
    ([markers_spec] built on [replace_spec]), not only its own span. *)
Theorem rag_markers_global_replace (question assistant vector_store : text)
    (st st1 st' : @state W) (value : text) (annotations : list annotation) (answer : text) :
  fetch_answer question assistant st = (Ok (value, annotations), st1) ->
  forallb (fun a => nonempty (ann_text a)) annotations = true ->
  execute_rag_pipeline question assistant vector_store st = (Ok answer, st') ->
  exists body refs,
    answer = body ++ nl ++ nl ++ refs /\ markers_spec 0 annotations value body.
Proof.
  intros Hf Hne He. rewrite (fetch_then_annotate _ _ vector_store _ _ _ _ Hf) in He.
  destruct (annotate_loop 0 annotations value [] st1) as [[[body cs]|e] st2] eqn:Hl;
    [|discriminate].
  inversion He; subst. clear He.
  apply annotate_loop_ok in Hl as [fns [_ [_ Hm]]].
  exists body, (join nl cs). split; [reflexivity|]. apply Hm, Hne.
Qed.

Lemma annotate_loop_spans (prefix : text) (index : nat) (pairs : list (annotation * text))
    (citations : list text) (st st' : @state W) (value' : text) (citations' : list text) :
  spans_unique prefix index pairs = true ->
  annotate_loop index (map fst pairs) (prefix ++ spans_text pairs) citations st =
    (Ok (value', citations'), st') ->
  value' = prefix ++ marked index pairs.
Proof.
  revert prefix index citations st.
  induction pairs as [|[a s] rest IH]; intros prefix index citations st Hu H.
  - simpl in H. inversion H; subst. reflexivity.
  - cbn [spans_unique] in Hu. apply andb_true_iff in Hu as [Hu Hrest].
    apply andb_true_iff in Hu as [Hne Honly].
    assert (Hrep : py_replace (prefix ++ spans_text ((a, s) :: rest)) (ann_text a) (marker index)
                   = (prefix ++ marker index ++ s) ++ spans_text rest).
    { unfold spans_text. cbn [map concat fst snd]. rewrite <- !app_assoc.
      apply py_replace_unique.
      - destruct (ann_text a); [discriminate|congruence].
      - apply only_at_sound. exact Honly. }
    cbn [annotate_loop map fst] in H. rewrite Hrep in H.
    destruct (file_citation a) as [fid|].
    + unfold bind, remote in H.
      destruct (files_retrieve fid (world st)) as [[fn w']|e]; [|discriminate].
      apply IH in H; [|exact Hrest]. subst. cbn [marked]. rewrite <- !app_assoc. reflexivity.
    + apply IH in H; [|exact Hrest]. subst. cbn [marked]. rewrite <- !app_assoc. reflexivity.
Qed.

(** C1 (amended): let the raw answer be [s0 t0 s1 t1 ... t(N-1) sN], [ti]
    the text of annotation [i].  When each [ti] is non-empty and, at its
    turn, occurs in the partly rewritten answer only at its own span, the
    rewritten answer is [s0 [0] s1 [1] ... [N-1] sN].  It is followed by
    ["\n\n"] and one line ["[i] filename"] per annotation [i] that carries a
    [file_citation], in increasing [i], the file name being the one the
    platform returned for the cited file: [count_cited] lines, [N] exactly
    when every annotation carries a [file_citation]. *)
Theorem rag_markers_and_references (question assistant vector_store : text)
    (st st1 st' : @state W) (s0 : text) (pairs : list (annotation * text)) (answer : text) :
  fetch_answer question assistant st = (Ok (s0 ++ spans_text pairs, map fst pairs), st1) ->
  spans_unique s0 0 pairs = true ->
  execute_rag_pipeline question assistant vector_store st = (Ok answer, st') ->
  exists filenames,
    answer = s0 ++ marked 0 pairs ++ nl ++ nl ++
             join nl (reference_lines (cited 0 (map fst pairs)) filenames) /\
    Forall2 (fun c fn => exists w w' : W, files_retrieve (snd c) w = Ok (fn, w'))
      (cited 0 (map fst pairs)) filenames /\
    length (reference_lines (cited 0 (map fst pairs)) filenames) = count_cited (map fst pairs).
Proof.
  intros Hf Hu He. rewrite (fetch_then_annotate _ _ vector_store _ _ _ _ Hf) in He.
  destruct (annotate_loop 0 (map fst pairs) (s0 ++ spans_text pairs) [] st1)
    as [[[body cs]|e] st2] eqn:Hl; [|discriminate].
  inversion He; subst. clear He.
  pose proof (annotate_loop_spans _ _ _ _ _ _ _ _ Hu Hl) as Hb.
  apply annotate_loop_ok in Hl as [fns [Hfa [Hc _]]].
  exists fns. simpl in Hc. subst. repeat split.
  - simpl. rewrite <- app_assoc. reflexivity.
  - exact Hfa.
  - rewrite reference_lines_length; [apply cited_length|exact (Forall2_length Hfa)].
Qed.

Lemma json_strs_some (items : list json) (l : list text) :
  json_strs items = Some l -> items = map JStr l.
Proof.
  revert l; induction items as [|j items IH]; intros l H; simpl in H.
  - inversion H; reflexivity.
  - destruct j; try discriminate.
    destruct (json_strs items) as [l'|] eqn:E; [|discriminate].
    inversion H; subst. simpl. f_equal. apply IH; reflexivity.
Qed.

(** C7 (amended): validation turns a string [s] into [[s]] and keeps a
    JSON array of strings as the list of its strings, in order; the empty
    array is accepted as the empty sequence, nothing rejects it, and
    [scrape_urls] on it writes an empty document. *)
Theorem urls_validation_normalizes :
  crawler_warmup = Ok tt ->
  (forall v l, URLRequest_validate v = Ok l ->
     (exists s, v = JStr s /\ l = [s]) \/ v = JList (map JStr l)) /\
  URLRequest_validate (JList []) = Ok [] /\
  (forall st : @state W,
     scrape_urls [] st =
       (Ok (mktemp (files st)),
        mkState (world st) (fs_write (mktemp (files st)) [] (files st))
                (trace st ++ [CrawlerWarmup]))).
Proof.
  intros Hw. split; [|split; [reflexivity|]].
  - intros v l H. unfold URLRequest_validate, urls_type_validate in H.
    destruct v; try discriminate.
    + inversion H; subst. left. eauto.
    + destruct (json_strs items) as [l'|] eqn:E; [|discriminate].
      inversion H; subst. right. simpl. f_equal. apply json_strs_some; exact E.
  - intros st. unfold scrape_urls, bind, crawl. rewrite Hw. reflexivity.
Qed.

Lemma create_assistant_fail (p d : text) (st st' : @state W) (e : exn) :
  fs_lookup p (files st) = Some d ->
  create_assistant_and_vectorstore p st = (Err e, st') ->
  files st' = files st /\ corpus_failure d (world st) (trace st) e (world st') (trace st').
Proof.
  intros Hp H. unfold create_assistant_and_vectorstore, bind, remote, read_file in H.
  unfold corpus_failure.
  destruct (assistants_create qa_params (world st)) as [[a w1]|e1] eqn:H1.
  2:{ inversion H; subst. simpl. auto. }
  cbn [world files trace log] in H.
  destruct (vector_stores_create (txt "Scraped Content") w1) as [[v w2]|e2] eqn:H2.
  2:{ inversion H; subst. simpl. split; [reflexivity|].
      right; left. exists a, w1. repeat split; try assumption.
      rewrite <- app_assoc. reflexivity. }
  cbn [world files trace log] in H. rewrite Hp in H. cbn [world files trace log] in H.
  destruct (upload_and_poll v d w2) as [[status w3]|e3] eqn:H3.
  2:{ inversion H; subst. simpl. split; [reflexivity|].
      right; right; left. exists a, w1, v, w2. repeat split; try assumption.
      rewrite <- !app_assoc. reflexivity. }
  cbn [world files trace log] in H.
  destruct (assistants_update a [v] w3) as [[a' w4]|e4] eqn:H4; [discriminate|].
  inversion H; subst. simpl. split; [reflexivity|].
  right; right; right. exists a, w1, v, w2, status, w3. repeat split; try assumption.
  rewrite <- !app_assoc. reflexivity.
Qed.

(** C8: when the corpus assembly fails after the document was scraped,
    the endpoint raises an [HTTPException] 500 built from the failure, and
    no call follows the failing one: no deletion or other change of the
    assistant or vector store already created; the remote world is the one
    the successful calls produced. *)
Theorem upsert_failure_no_cleanup (urls : list text) (st st1 st' : @state W)
    (p : text) (e : exn) :
  scrape_urls urls st = (Ok p, st1) ->
  scrape_and_upsert urls st = (Err e, st') ->
  exists e0 d,
    e = HTTPException 500 (str_exn e0) /\
    fs_lookup p (files st1) = Some d /\
    files st' = files st1 /\
    corpus_failure d (world st1) (trace st1) e0 (world st') (trace st').
Proof.
  intros Hs He.
  pose proof (scrape_urls_ok _ _ _ _ Hs) as [mds [_ [_ [Hp _]]]].
  unfold scrape_and_upsert, try_except in He.
  rewrite (bind_ok _ _ _ _ _ Hs) in He.
  unfold bind at 1 in He.
  destruct (create_assistant_and_vectorstore p st1) as [[av|e0] st2] eqn:Hc;
    [discriminate|].
  inversion He; subst. clear He.
  destruct (create_assistant_fail _ _ _ _ _ Hp Hc) as [Hf Hcf].
  exists e0, (join doc_separator (map clean mds)). auto.
Qed.

End Properties.

(** ** Witnesses and counterexamples on the mock platform *)

Lemma clean_removes_matches_witness :
  re_search_lazy subscribe_open subscribe_close (txt "Plain page") = None /\
  re_search_lazy cart_open cart_close (txt "Plain page") = None /\
  clean (txt "Plain page") = txt "Plain page".
Proof.
  destruct (clean_removes_matches (txt "Plain page")) as [_ [_ [_ H]]].
  split; [reflexivity|]. split; [reflexivity|]. apply H; reflexivity.
Defined.

Lemma scrape_urls_document_witness :
  let st' := snd (@scrape_urls nat demo_crawler mock_tmp [url_a; url_b] st0) in
  @scrape_urls nat demo_crawler mock_tmp [url_a; url_b] st0 = (Ok (txt "/tmp/tmp0.md"), st') /\
  exists mds,
    Forall2 (fun url (md : text) => @crawler_run demo_crawler url = Ok md) [url_a; url_b] mds /\
    txt "/tmp/tmp0.md" = @mktemp mock_tmp (files st0) /\
    fs_lookup (txt "/tmp/tmp0.md") (files st') = Some (join doc_separator (map clean mds)) /\
    world st' = world st0.
Proof.
  intros st'.
  assert (H : @scrape_urls nat demo_crawler mock_tmp [url_a; url_b] st0 =
              (Ok (txt "/tmp/tmp0.md"), st')) by (vm_compute; reflexivity).
  split; [exact H|]. exact (scrape_urls_document _ _ _ _ H).
Defined.

Lemma scrape_fail_fast_witness :
  @crawler_warmup demo_crawler = Ok tt /\
  forallb (@fetched demo_crawler) [url_a] = true /\
  @crawler_run demo_crawler url_c = Err (Exception (txt "404 Not Found")) /\
  fst (@scrape_and_upsert nat failing_client demo_crawler mock_tmp [url_a; url_c] st0) =
    Err (HTTPException 500 (txt "500: Failed to scrape " ++ url_c ++ txt ": 404 Not Found")).
Proof.
  split; [reflexivity|]. split; [reflexivity|]. split; [reflexivity|].
  destruct (scrape_fail_fast (client := failing_client) (crawler := demo_crawler)
              (tmp := mock_tmp) [url_a] url_c [] (Exception (txt "404 Not Found")) st0
              eq_refl eq_refl eq_refl) as [_ H].
  exact (f_equal fst H).
Defined.

Lemma rag_no_annotations_verbatim_witness :
  let st1 := snd (@fetch_answer nat plain_client (txt "q") (txt "asst_0") st0) in
  @fetch_answer nat plain_client (txt "q") (txt "asst_0") st0 =
    (Ok (txt "Plain answer", []), st1) /\
  @execute_rag_pipeline nat plain_client (txt "q") (txt "asst_0") (txt "vs_1") st0 =
    (Ok (txt "Plain answer" ++ nl ++ nl), st1).
Proof.
  intros st1.
  assert (H : @fetch_answer nat plain_client (txt "q") (txt "asst_0") st0 =
              (Ok (txt "Plain answer", []), st1)) by (vm_compute; reflexivity).
  split; [exact H|]. exact (rag_no_annotations_verbatim _ _ (txt "vs_1") _ _ _ H).
Defined.

Lemma rag_reference_lines_cited_only_witness :
  let st1 := snd (@fetch_answer nat demo_client (txt "q") (txt "asst_0") st0) in
  let run := @execute_rag_pipeline nat demo_client (txt "q") (txt "asst_0") (txt "vs_1") st0 in
  @fetch_answer nat demo_client (txt "q") (txt "asst_0") st0 =
    (Ok (txt "A X B X C Y", demo_annotations), st1) /\
  run = (Ok (txt "A [0] B [0] C [2]" ++ nl ++ nl ++ txt "[0] f1.pdf" ++ nl ++ txt "[1] f2.pdf"),
         snd run) /\
  exists body filenames,
    txt "A [0] B [0] C [2]" ++ nl ++ nl ++ txt "[0] f1.pdf" ++ nl ++ txt "[1] f2.pdf" =
      body ++ nl ++ nl ++ join nl (reference_lines (cited 0 demo_annotations) filenames) /\
    (forallb (fun a => nonempty (ann_text a)) demo_annotations = true ->
     markers_spec 0 demo_annotations (txt "A X B X C Y") body) /\
    Forall2 (fun c fn => exists w w' : nat, @files_retrieve nat demo_client (snd c) w = Ok (fn, w'))
      (cited 0 demo_annotations) filenames /\
    length (reference_lines (cited 0 demo_annotations) filenames) = count_cited demo_annotations /\
    count_cited demo_annotations <= length demo_annotations.
Proof.
  intros st1 run.
  assert (H1 : @fetch_answer nat demo_client (txt "q") (txt "asst_0") st0 =
               (Ok (txt "A X B X C Y", demo_annotations), st1)) by (vm_compute; reflexivity).
  assert (H2 : run = (Ok (txt "A [0] B [0] C [2]" ++ nl ++ nl ++ txt "[0] f1.pdf" ++ nl ++
                          txt "[1] f2.pdf"), snd run)) by (vm_compute; reflexivity).
  split; [exact H1|]. split; [exact H2|].
  exact (rag_reference_lines_cited_only (txt "q") (txt "asst_0") (txt "vs_1") _ _ _ _ _ _ H1 H2).
Defined.

Lemma rag_markers_global_replace_witness :
  let st1 := snd (@fetch_answer nat demo_client (txt "q") (txt "asst_0") st0) in
  let run := @execute_rag_pipeline nat demo_client (txt "q") (txt "asst_0") (txt "vs_1") st0 in
  @fetch_answer nat demo_client (txt "q") (txt "asst_0") st0 =
    (Ok (txt "A X B X C Y", demo_annotations), st1) /\
  forallb (fun a => nonempty (ann_text a)) demo_annotations = true /\
  run = (Ok (txt "A [0] B [0] C [2]" ++ nl ++ nl ++ txt "[0] f1.pdf" ++ nl ++ txt "[1] f2.pdf"),
         snd run) /\
  exists body refs,
    txt "A [0] B [0] C [2]" ++ nl ++ nl ++ txt "[0] f1.pdf" ++ nl ++ txt "[1] f2.pdf" =
      body ++ nl ++ nl ++ refs /\
    markers_spec 0 demo_annotations (txt "A X B X C Y") body.
Proof.
  intros st1 run.
  assert (H1 : @fetch_answer nat demo_client (txt "q") (txt "asst_0") st0 =
               (Ok (txt "A X B X C Y", demo_annotations), st1)) by (vm_compute; reflexivity).
  assert (H2 : run = (Ok (txt "A [0] B [0] C [2]" ++ nl ++ nl ++ txt "[0] f1.pdf" ++ nl ++
                          txt "[1] f2.pdf"), snd run)) by (vm_compute; reflexivity).
  split; [exact H1|]. split; [reflexivity|]. split; [exact H2|].
  exact (rag_markers_global_replace (txt "q") (txt "asst_0") (txt "vs_1") _ _ _ _ _ _ H1 eq_refl H2).
Defined.

(** The claim C1 as stated fails: three annotations give the markers [[0]],
    [[0]] and [[2]] (the second annotation's text was already replaced by
    the first's global replacement) and two reference lines (the third
    annotation has no [file_citation]). *)
Lemma rag_markers_counterexample :
  length demo_annotations = 3 /\
  fst (@execute_rag_pipeline nat demo_client (txt "q") (txt "asst_0") (txt "vs_1") st0) =
    Ok (txt "A [0] B [0] C [2]" ++ nl ++ nl ++ txt "[0] f1.pdf" ++ nl ++ txt "[1] f2.pdf").
Proof. split; [reflexivity|]. vm_compute. reflexivity. Qed.

Lemma rag_markers_and_references_witness :
  let st1 := snd (@fetch_answer nat unique_client (txt "q") (txt "asst_0") st0) in
  let run := @execute_rag_pipeline nat unique_client (txt "q") (txt "asst_0") (txt "vs_1") st0 in
  @fetch_answer nat unique_client (txt "q") (txt "asst_0") st0 =
    (Ok (unique_prefix ++ spans_text unique_pairs, map fst unique_pairs), st1) /\
  spans_unique unique_prefix 0 unique_pairs = true /\
  run = (Ok (txt "See [0] and [1]." ++ nl ++ nl ++ txt "[0] f1.pdf"), snd run) /\
  exists filenames,
    txt "See [0] and [1]." ++ nl ++ nl ++ txt "[0] f1.pdf" =
      unique_prefix ++ marked 0 unique_pairs ++ nl ++ nl ++
      join nl (reference_lines (cited 0 (map fst unique_pairs)) filenames) /\
    Forall2 (fun c fn => exists w w' : nat, @files_retrieve nat unique_client (snd c) w = Ok (fn, w'))
      (cited 0 (map fst unique_pairs)) filenames /\
    length (reference_lines (cited 0 (map fst unique_pairs)) filenames) =
      count_cited (map fst unique_pairs).
Proof.
  intros st1 run.
  assert (H1 : @fetch_answer nat unique_client (txt "q") (txt "asst_0") st0 =
               (Ok (unique_prefix ++ spans_text unique_pairs, map fst unique_pairs), st1))
    by (vm_compute; reflexivity).
  assert (H2 : run = (Ok (txt "See [0] and [1]." ++ nl ++ nl ++ txt "[0] f1.pdf"), snd run))
    by (vm_compute; reflexivity).
  assert (H3 : spans_unique unique_prefix 0 unique_pairs = true) by (vm_compute; reflexivity).
  split; [exact H1|]. split; [exact H3|]. split; [exact H2|].
  exact (rag_markers_and_references (txt "q") (txt "asst_0") (txt "vs_1") _ _ _ _ _ _ H1 H3 H2).
Defined.

(** The claim C7 as stated fails: the empty list passes validation and
    reaches the scraping step, which writes an empty document that is then
    indexed. *)
Lemma urls_empty_accepted_counterexample :
  URLRequest_validate (JList []) = Ok [] /\
  fst (@scrape_and_upsert_request nat (mock_client [] true) demo_crawler mock_tmp (JList []) st0) =
    Ok {| message_text :=
            txt "Successfully scraped content from 0 URLs and created assistant and vector store.";
          assistant_id := txt "asst_0";
          vector_store_id := txt "vs_1" |} /\
  fs_lookup (txt "/tmp/tmp0.md")
    (files (snd (@scrape_and_upsert_request nat (mock_client [] true) demo_crawler mock_tmp
                   (JList []) st0))) = Some [].
Proof. split; [reflexivity|]. split; vm_compute; reflexivity. Qed.

Lemma urls_validation_normalizes_witness :
  @crawler_warmup demo_crawler = Ok tt /\
  @scrape_urls nat demo_crawler mock_tmp [] st0 =
    (Ok (txt "/tmp/tmp0.md"), mkState 0 [(txt "/tmp/tmp0.md", [])] [CrawlerWarmup]).
Proof.
  split; [reflexivity|].
  destruct (urls_validation_normalizes (W := nat) (crawler := demo_crawler) (tmp := mock_tmp)
              eq_refl) as [_ [_ H]].
  exact (H st0).
Defined.

Lemma upsert_failure_no_cleanup_witness :
  let sc := @scrape_urls nat demo_crawler mock_tmp [url_a] st0 in
  let up := @scrape_and_upsert nat failing_client demo_crawler mock_tmp [url_a] st0 in
  sc = (Ok (txt "/tmp/tmp0.md"), snd sc) /\
  up = (Err (HTTPException 500 (txt "upload failed")), snd up) /\
  exists e0 d,
    HTTPException 500 (txt "upload failed") = HTTPException 500 (str_exn e0) /\
    fs_lookup (txt "/tmp/tmp0.md") (files (snd sc)) = Some d /\
    files (snd up) = files (snd sc) /\
    @corpus_failure nat failing_client d (world (snd sc)) (trace (snd sc)) e0
      (world (snd up)) (trace (snd up)).
Proof.
  intros sc up.
  assert (H1 : sc = (Ok (txt "/tmp/tmp0.md"), snd sc)) by (vm_compute; reflexivity).
  assert (H2 : up = (Err (HTTPException 500 (txt "upload failed")), snd up))
    by (vm_compute; reflexivity).
  split; [exact H1|]. split; [exact H2|].
  exact (upsert_failure_no_cleanup (client := failing_client) _ _ _ _ _ _ H1 H2).
Defined.

(** ** Further properties of the service *)

Lemma join_app (sep : text) (l1 l2 : list text) :
  l1 <> [] -> l2 <> [] -> join sep (l1 ++ l2) = join sep l1 ++ sep ++ join sep l2.
Proof.
  intros H1 H2. induction l1 as [|x l1 IH]; [congruence|].
  destruct l1 as [|y l1].
  - simpl. destruct l2; [congruence|reflexivity].
  - assert (Hc : forall a b r, join sep (a :: b :: r) = a ++ sep ++ join sep (b :: r))
      by reflexivity.
    rewrite <- !app_comm_cons, !Hc. rewrite <- app_comm_cons in IH.
    rewrite IH by discriminate. rewrite <- !app_assoc. reflexivity.
Qed.

Lemma sub_spec_length (A B s r : text) : sub_spec A B s r -> length r <= length s.
Proof.
  induction 1 as [s _|kept mid rest r _ _ _ IH]; [lia|].
  rewrite !length_app. lia.
Qed.

Lemma Forall2_fun {X Y : Type} (f : X -> res Y) (xs : list X) (ys zs : list Y) :
  Forall2 (fun x y => f x = Ok y) xs ys -> Forall2 (fun x z => f x = Ok z) xs zs -> ys = zs.
Proof.
  intros H; revert zs; induction H as [|x y xs ys Hxy _ IH]; intros zs Hz;
    inversion Hz as [|x' z xs' zs' Hxz Hr]; subst; [reflexivity|].
  rewrite Hxy in Hxz. inversion Hxz; subst. f_equal. apply IH; exact Hr.
Qed.

(** X13: [list_to_string] of two non-empty lists put together is the two
    strings joined by the separator. *)
Theorem list_to_string_app (l1 l2 : list text) (separator : text) :
  0 < length l1 -> 0 < length l2 ->
  list_to_string (l1 ++ l2) separator =
    list_to_string l1 separator ++ separator ++ list_to_string l2 separator.
Proof.
  intros H1 H2. unfold list_to_string. apply join_app.
  - destruct l1; simpl in H1; [lia|discriminate].
  - destruct l2; simpl in H2; [lia|discriminate].
Qed.

(** X14: the cleanup step never makes a page longer. *)
Theorem clean_never_longer (s : text) : length (clean s) <= length s.
Proof.
  rewrite clean_unfold.
  pose proof (sub_spec_length _ _ _ _ (re_sub_lazy_spec subscribe_open subscribe_close s
                                         subscribe_open_nonempty)) as H1.
  pose proof (sub_spec_length _ _ _ _ (re_sub_lazy_spec cart_open cart_close
                 (re_sub_lazy subscribe_open subscribe_close s) cart_open_nonempty)) as H2.
  lia.
Qed.

Section Extras.

Context {W : Type} `{client : OpenAIClient W} `{crawler : WebCrawler} `{tmp : TempDir}.

(** X1: a successful [scrape_urls] warms the crawler up once, fetches
    every URL exactly once in input order, calls no platform service, and
    adds exactly one file, the document, under the returned name. *)
Theorem scrape_urls_effects (urls : list text) (st st' : @state W) (p : text) :
  scrape_urls urls st = (Ok p, st') ->
  exists mds,
    Forall2 (fun url (md : text) => crawler_run url = Ok md) urls mds /\
    world st' = world st /\
    files st' = fs_write p (join doc_separator (map clean mds)) (files st) /\
    trace st' = trace st ++ CrawlerWarmup :: map CrawlerRun urls.
Proof.
  unfold scrape_urls, bind, crawl, write_temp. intros H.
  destruct crawler_warmup as [u|e]; [|discriminate].
  destruct (scrape_each urls (log CrawlerWarmup st)) as [[cs|e] st2] eqn:Hs;
    [|discriminate].
  apply scrape_each_ok in Hs as [mds [Hf [-> [Hw [Hfs Ht]]]]].
  inversion H; subst. exists mds. simpl in *. repeat split.
  - exact Hf.
  - exact Hw.
  - rewrite Hfs. reflexivity.
  - rewrite Ht, <- app_assoc. reflexivity.
Qed.

(** X2: scraping two non-empty batches together gives the document of the
    first batch, the separator, and the document of the second. *)
Theorem scrape_urls_batches (l1 l2 : list text) (st st' st1 st2 : @state W) (p p1 p2 : text) :
  0 < length l1 -> 0 < length l2 ->
  scrape_urls (l1 ++ l2) st = (Ok p, st') ->
  scrape_urls l1 st = (Ok p1, st1) ->
  scrape_urls l2 st = (Ok p2, st2) ->
  exists d1 d2,
    fs_lookup p1 (files st1) = Some d1 /\
    fs_lookup p2 (files st2) = Some d2 /\
    fs_lookup p (files st') = Some (d1 ++ doc_separator ++ d2).
Proof.
  intros H1 H2 H H1s H2s.
  apply scrape_urls_effects in H as [mds [Hf [_ [Hfs _]]]].
  apply scrape_urls_effects in H1s as [mds1 [Hf1 [_ [Hfs1 _]]]].
  apply scrape_urls_effects in H2s as [mds2 [Hf2 [_ [Hfs2 _]]]].
  apply Forall2_app_inv_l in Hf as [m1 [m2 [Hm1 [Hm2 ->]]]].
  rewrite (Forall2_fun _ _ _ _ Hf1 Hm1) in *. rewrite (Forall2_fun _ _ _ _ Hf2 Hm2) in *.
  exists (join doc_separator (map clean m1)), (join doc_separator (map clean m2)).
  rewrite Hfs, Hfs1, Hfs2, !fs_lookup_write. repeat split.
  rewrite map_app, join_app; [reflexivity| |].
  - apply Forall2_length in Hm1. destruct m1; simpl in *; [lia|discriminate].
  - apply Forall2_length in Hm2. destruct m2; simpl in *; [lia|discriminate].
Qed.

Lemma json_strs_map (l : list text) : json_strs (map JStr l) = Some l.
Proof. induction l as [|x l IH]; simpl; [reflexivity|]. rewrite IH. reflexivity. Qed.


(** X4: a JSON array is accepted exactly when all its elements are strings,
    and then becomes the list of those strings, in order; one non-string
    element rejects the whole request. *)
Theorem urls_array_accepted_iff_strings (items : list json) (l : list text) :
  URLRequest_validate (JList items) = Ok l <-> items = map JStr l.
Proof.
  unfold URLRequest_validate, urls_type_validate. split.
  - destruct (json_strs items) as [l'|] eqn:E; intros H; inversion H; subst.
    apply json_strs_some; exact E.
  - intros ->. rewrite json_strs_map. reflexivity.
Qed.

(** X5: a successful corpus assembly creates one assistant and one vector
    store, uploads exactly the content of the given file to that store,
    binds that store (and only it) to that assistant, and returns the
    updated assistant with the store; it changes no local file. *)
Theorem create_assistant_success (p : text) (st st' : @state W) (a' v : text) :
  create_assistant_and_vectorstore p st = (Ok (a', v), st') ->
  exists a w1 d w2 status w3,
    assistants_create qa_params (world st) = Ok (a, w1) /\
    vector_stores_create (txt "Scraped Content") w1 = Ok (v, w2) /\
    fs_lookup p (files st) = Some d /\
    upload_and_poll v d w2 = Ok (status, w3) /\
    assistants_update a [v] w3 = Ok (a', world st') /\
    files st' = files st /\
    trace st' = trace st ++ [AssistantsCreate; VectorStoresCreate;
                             FileBatchesUploadAndPoll v; AssistantsUpdate a [v]].
Proof.
  intros H. unfold create_assistant_and_vectorstore, bind, remote, read_file in H.
  destruct (assistants_create qa_params (world st)) as [[a w1]|e1] eqn:H1;
    [|discriminate].
  cbn [world files trace log] in H.
  destruct (vector_stores_create (txt "Scraped Content") w1) as [[v0 w2]|e2] eqn:H2;
    [|discriminate].
  cbn [world files trace log] in H.
  destruct (fs_lookup p (files st)) as [d|] eqn:Hp; [|discriminate].
  cbn [world files trace log] in H.
  destruct (upload_and_poll v0 d w2) as [[status w3]|e3] eqn:H3; [|discriminate].
  cbn [world files trace log] in H.
  destruct (assistants_update a [v0] w3) as [[a0 w4]|e4] eqn:H4; [|discriminate].
  unfold ret in H. inversion H; subst.
  exists a, w1, d, w2, status, w3. cbn [world files trace]. repeat split; try assumption.
  rewrite <- !app_assoc. reflexivity.
Qed.

(** X6: when [/scrape_and_upsert] succeeds, every URL was fetched once in
    order after one warm-up, the document uploaded to the returned vector
    store is the cleaned pages joined by the separator, that store was the
    one created and is bound to the returned assistant, and the message
    counts the URLs of the request. *)
Theorem scrape_and_upsert_success (urls : list text) (st st' : @state W)
    (r : upsert_response) :
  scrape_and_upsert urls st = (Ok r, st') ->
  exists mds a w1 w2 status w3,
    Forall2 (fun url (md : text) => crawler_run url = Ok md) urls mds /\
    assistants_create qa_params (world st) = Ok (a, w1) /\
    vector_stores_create (txt "Scraped Content") w1 = Ok (vector_store_id r, w2) /\
    upload_and_poll (vector_store_id r) (join doc_separator (map clean mds)) w2 =
      Ok (status, w3) /\
    assistants_update a [vector_store_id r] w3 = Ok (assistant_id r, world st') /\
    message_text r = txt "Successfully scraped content from " ++ show_nat (length urls) ++
                     txt " URLs and created assistant and vector store." /\
    trace st' = trace st ++ CrawlerWarmup :: map CrawlerRun urls ++
                [AssistantsCreate; VectorStoresCreate;
                 FileBatchesUploadAndPoll (vector_store_id r);
                 AssistantsUpdate a [vector_store_id r]].
Proof.
  intros H. unfold scrape_and_upsert, try_except in H.
  destruct (scrape_urls urls st) as [[p|e] st1] eqn:Hs.
  2:{ rewrite (bind_err _ _ _ _ _ Hs) in H. discriminate. }
  rewrite (bind_ok _ _ _ _ _ Hs) in H.
  destruct (create_assistant_and_vectorstore p st1) as [[[a' v]|e] st2] eqn:Hc.
  2:{ rewrite (bind_err _ _ _ _ _ Hc) in H. discriminate. }
  rewrite (bind_ok _ _ _ _ _ Hc) in H. unfold ret in H. inversion H; subst. clear H.
  apply scrape_urls_effects in Hs as [mds [Hf [Hw [Hfs Ht]]]].
  apply create_assistant_success in Hc
    as [a [w1 [d [w2 [status [w3 [H1 [H2 [Hp [H3 [H4 [_ Ht']]]]]]]]]]]].
  rewrite Hfs, fs_lookup_write in Hp. inversion Hp; subst d.
  rewrite Hw in H1.
  exists mds, a, w1, w2, status, w3. cbn [assistant_id vector_store_id message_text].
  repeat split; try assumption.
  rewrite Ht', Ht, <- !app_assoc. reflexivity.
Qed.



Lemma annotate_loop_trace (index : nat) (annotations : list annotation)
    (value : text) (citations : list text) (st st' : @state W) (x : text * list text) :
  annotate_loop index annotations value citations st = (Ok x, st') ->
  trace st' = trace st ++ map (fun c => FilesRetrieve (snd c)) (cited index annotations) /\
  files st' = files st.
Proof.
  revert index value citations st.
  induction annotations as [|a rest IH]; intros index value citations st H.
  - simpl in H. inversion H; subst. rewrite app_nil_r. split; reflexivity.
  - simpl in H. simpl. destruct (file_citation a) as [fid|] eqn:Hf.
    + unfold bind, remote in H.
      destruct (files_retrieve fid (world st)) as [[fn w']|e] eqn:Hr; [|discriminate].
      apply IH in H as [Ht Hfs]. cbn [trace files log] in Ht, Hfs.
      rewrite Ht, <- app_assoc. split; [reflexivity|exact Hfs].
    + apply IH in H. exact H.
Qed.

Lemma fetch_answer_trace (question assistant : text) (st st1 : @state W)
    (x : text * list annotation) :
  fetch_answer question assistant st = (Ok x, st1) ->
  exists thread run,
    trace st1 = trace st ++ [ThreadsCreate; RunsCreateAndPoll thread assistant;
                             MessagesList thread run] /\
    files st1 = files st.
Proof.
  unfold fetch_answer, bind, remote. intros H.
  destruct (threads_create question (world st)) as [[th w1]|e]; [|discriminate].
  cbn [world files trace log] in H.
  destruct (runs_create_and_poll th assistant w1) as [[r w2]|e]; [|discriminate].
  cbn [world files trace log] in H.
  destruct (messages_list th r w2) as [[msgs w3]|e]; [|discriminate].
  cbn [world files trace log] in H.
  unfold first_text, ret, raise in H.
  destruct msgs as [|[|[v anns|] _] _]; try discriminate.
  inversion H; subst. exists th, r. cbn [trace files].
  rewrite <- !app_assoc. split; reflexivity.
Qed.

(** X9: a successful [execute_rag_pipeline] creates one thread, runs it
    with the given assistant, lists its messages, then looks up the file of
    each cited annotation of the answer exactly once, in annotation order,
    and nothing else; it writes no file. *)
Theorem rag_call_sequence (question assistant vector_store : text) (st st' : @state W)
    (answer : text) :
  execute_rag_pipeline question assistant vector_store st = (Ok answer, st') ->
  exists thread run value annotations,
    fst (fetch_answer question assistant st) = Ok (value, annotations) /\
    trace st' = trace st ++ [ThreadsCreate; RunsCreateAndPoll thread assistant;
                             MessagesList thread run] ++
                map (fun c => FilesRetrieve (snd c)) (cited 0 annotations) /\
    files st' = files st.
Proof.
  intros H. destruct (fetch_answer question assistant st) as [[[value anns]|e] st1] eqn:Hf.
  2:{ unfold execute_rag_pipeline in H. rewrite (bind_err _ _ _ _ _ Hf) in H. discriminate. }
  rewrite (fetch_then_annotate _ _ vector_store _ _ _ _ Hf) in H.
  destruct (annotate_loop 0 anns value [] st1) as [[vc|e] st2] eqn:Ha; [|discriminate].
  inversion H; subst. apply annotate_loop_trace in Ha as [Ht Hfs].
  apply fetch_answer_trace in Hf as [th [r [Ht1 Hfs1]]].
  exists th, r, value, anns. repeat split.
  - rewrite Ht, Ht1, <- app_assoc. reflexivity.
  - congruence.
Qed.

Lemma annotate_loop_lookup_fails (annotations : list annotation) (ann : annotation)
    (fid : text) (e0 : exn) :
  In ann annotations -> file_citation ann = Some fid ->
  (forall w : W, files_retrieve fid w = Err e0) ->
  forall index value citations (st : @state W),
    exists e st', annotate_loop index annotations value citations st = (Err e, st').
Proof.
  intros Hin Hf Hr. induction annotations as [|a rest IH]; [destruct Hin|].
  intros index value citations st. simpl.
  destruct Hin as [->|Hin].
  - rewrite Hf. unfold bind, remote. rewrite Hr. eauto.
  - destruct (file_citation a) as [fid'|].
    + unfold bind, remote.
      destruct (files_retrieve fid' (world st)) as [[fn w']|e]; [|eauto].
      apply IH; exact Hin.
    + apply IH; exact Hin.
Qed.

(** X10: if the file of any cited annotation of the answer cannot be
    retrieved, [execute_rag_pipeline] returns no answer at all: the
    failure aborts the whole request instead of dropping that reference. *)
Theorem rag_file_lookup_failure_aborts (question assistant vector_store : text)
    (st st1 : @state W) (value : text) (annotations : list annotation)
    (ann : annotation) (fid : text) (e0 : exn) :
  fetch_answer question assistant st = (Ok (value, annotations), st1) ->
  In ann annotations -> file_citation ann = Some fid ->
  (forall w : W, files_retrieve fid w = Err e0) ->
  exists e st', execute_rag_pipeline question assistant vector_store st = (Err e, st').
Proof.
  intros Hf Hin Hc Hr. rewrite (fetch_then_annotate _ _ vector_store _ _ _ _ Hf).
  destruct (annotate_loop_lookup_fails _ _ _ _ Hin Hc Hr 0 value [] st1) as [e [st' ->]].
  eauto.
Qed.

(** X11: when the message list of the run is empty, [execute_rag_pipeline]
    fails with Python's ["list index out of range"] after its three calls
    (thread, run, message list), issuing no file lookup. *)
Theorem rag_empty_messages (question assistant vector_store : text) (st : @state W)
    (thread run : text) (w1 w2 w3 : W) :
  threads_create question (world st) = Ok (thread, w1) ->
  runs_create_and_poll thread assistant w1 = Ok (run, w2) ->
  messages_list thread run w2 = Ok ([], w3) ->
  execute_rag_pipeline question assistant vector_store st =
    (Err (Exception (txt "list index out of range")),
     mkState w3 (files st) (trace st ++ [ThreadsCreate; RunsCreateAndPoll thread assistant;
                                         MessagesList thread run])).
Proof.
  intros H1 H2 H3. unfold execute_rag_pipeline, fetch_answer, bind, remote.
  rewrite H1. cbn [world files trace log]. rewrite H2. cbn [world files trace log].
  rewrite H3. cbn [world files trace log]. unfold first_text, raise.
  rewrite <- !app_assoc. reflexivity.
Qed.

Lemma queries_only_ret {A} (a : A) : queries_only (W := W) (ret a).
Proof.
  intros st r st' H. inversion H; subst. exists []. rewrite app_nil_r. auto.
Qed.

Lemma queries_only_raise {A} (e : exn) : queries_only (W := W) (A := A) (raise e).
Proof.
  intros st r st' H. inversion H; subst. exists []. rewrite app_nil_r. auto.
Qed.

Lemma queries_only_bind {A B} (m : M (@state W) A) (k : A -> M (@state W) B) :
  queries_only m -> (forall a, queries_only (k a)) -> queries_only (bind m k).
Proof.
  intros Hm Hk st r st' H. unfold bind in H.
  destruct (m st) as [[a|e] st1] eqn:E.
  - destruct (Hm _ _ _ E) as [n1 [Ht1 [Hq1 Hf1]]].
    destruct (Hk a _ _ _ H) as [n2 [Ht2 [Hq2 Hf2]]].
    exists (n1 ++ n2). rewrite Ht2, Ht1, <- app_assoc, forallb_app, Hq1, Hq2.
    split; [reflexivity|]. split; [reflexivity|congruence].
  - inversion H; subst. exact (Hm _ _ _ E).
Qed.

Lemma queries_only_try_except {A} (m : M (@state W) A) (h : exn -> M (@state W) A) :
  queries_only m -> (forall e, queries_only (h e)) -> queries_only (try_except m h).
Proof.
  intros Hm Hh st r st' H. unfold try_except in H.
  destruct (m st) as [[a|e] st1] eqn:E.
  - inversion H; subst. exact (Hm _ _ _ E).
  - destruct (Hm _ _ _ E) as [n1 [Ht1 [Hq1 Hf1]]].
    destruct (Hh e _ _ _ H) as [n2 [Ht2 [Hq2 Hf2]]].
    exists (n1 ++ n2). rewrite Ht2, Ht1, <- app_assoc, forallb_app, Hq1, Hq2.
    split; [reflexivity|]. split; [reflexivity|congruence].
Qed.

Lemma queries_only_remote {A} (c : call) (op : W -> res (A * W)) :
  is_query_call c = true -> queries_only (remote c op).
Proof.
  intros Hc st r st' H. unfold remote in H. exists [c]. simpl. rewrite Hc.
  destruct (op (world st)) as [[a w']|e]; inversion H; subst; auto.
Qed.

Lemma queries_only_first_text (messages : list message) :
  queries_only (W := W) (first_text messages).
Proof.
  destruct messages as [|[|[v anns|] bs] rest]; simpl;
    first [apply queries_only_ret | apply queries_only_raise].
Qed.

Lemma queries_only_annotate_loop (index : nat) (annotations : list annotation)
    (value : text) (citations : list text) :
  queries_only (W := W) (annotate_loop index annotations value citations).
Proof.
  revert index value citations.
  induction annotations as [|a rest IH]; intros index value citations; simpl.
  - apply queries_only_ret.
  - destruct (file_citation a) as [fid|]; [|apply IH].
    apply queries_only_bind; [apply queries_only_remote; reflexivity|intros; apply IH].
Qed.

(** X12: [/ask_question] never creates, changes or deletes an assistant or a
    vector store and writes no file, in any outcome: the only calls it
    issues are retrievals, the thread, the run, the message list and the
    file lookups. *)
Theorem ask_question_queries_only (question aid vid : text) (st st' : @state W)
    (r : res text) :
  ask_question question aid vid st = (r, st') ->
  exists new, trace st' = trace st ++ new /\ forallb is_query_call new = true /\
              files st' = files st.
Proof.
  revert st r st'. unfold ask_question.
  apply queries_only_try_except; [|intros; apply queries_only_raise].
  apply queries_only_bind; [apply queries_only_remote; reflexivity|intros a].
  apply queries_only_bind; [apply queries_only_remote; reflexivity|intros v].
  unfold execute_rag_pipeline.
  apply queries_only_bind; [|intros mc].
  - unfold fetch_answer.
    apply queries_only_bind; [apply queries_only_remote; reflexivity|intros th].
    apply queries_only_bind; [apply queries_only_remote; reflexivity|intros rn].
    apply queries_only_bind; [apply queries_only_remote; reflexivity|intros msgs].
    apply queries_only_first_text.
  - apply queries_only_bind; [apply queries_only_annotate_loop|intros; apply queries_only_ret].
Qed.

End Extras.

Lemma list_to_string_app_witness :
  0 < length [txt "a"] /\ 0 < length [txt "b"; txt "c"] /\
  list_to_string ([txt "a"] ++ [txt "b"; txt "c"]) (txt ", ") =
    list_to_string [txt "a"] (txt ", ") ++ txt ", " ++
    list_to_string [txt "b"; txt "c"] (txt ", ").
Proof.
  split; [simpl; lia|]. split; [simpl; lia|].
  apply list_to_string_app; simpl; lia.
Defined.

Lemma scrape_urls_effects_witness :
  let st' := snd (@scrape_urls nat demo_crawler mock_tmp [url_a; url_b] st0) in
  @scrape_urls nat demo_crawler mock_tmp [url_a; url_b] st0 = (Ok (txt "/tmp/tmp0.md"), st') /\
  exists mds,
    Forall2 (fun url (md : text) => @crawler_run demo_crawler url = Ok md) [url_a; url_b] mds /\
    world st' = world st0 /\
    files st' = fs_write (txt "/tmp/tmp0.md") (join doc_separator (map clean mds)) (files st0) /\
    trace st' = trace st0 ++ CrawlerWarmup :: map CrawlerRun [url_a; url_b].
Proof.
  intros st'.
  assert (H : @scrape_urls nat demo_crawler mock_tmp [url_a; url_b] st0 =
              (Ok (txt "/tmp/tmp0.md"), st')) by (vm_compute; reflexivity).
  split; [exact H|]. exact (scrape_urls_effects _ _ _ _ H).
Defined.

Lemma scrape_urls_batches_witness :
  let r := @scrape_urls nat demo_crawler mock_tmp ([url_a] ++ [url_b]) st0 in
  let r1 := @scrape_urls nat demo_crawler mock_tmp [url_a] st0 in
  let r2 := @scrape_urls nat demo_crawler mock_tmp [url_b] st0 in
  0 < length [url_a] /\ 0 < length [url_b] /\
  r = (Ok (txt "/tmp/tmp0.md"), snd r) /\
  r1 = (Ok (txt "/tmp/tmp0.md"), snd r1) /\
  r2 = (Ok (txt "/tmp/tmp0.md"), snd r2) /\
  exists d1 d2,
    fs_lookup (txt "/tmp/tmp0.md") (files (snd r1)) = Some d1 /\
    fs_lookup (txt "/tmp/tmp0.md") (files (snd r2)) = Some d2 /\
    fs_lookup (txt "/tmp/tmp0.md") (files (snd r)) = Some (d1 ++ doc_separator ++ d2).
Proof.
  intros r r1 r2.
  assert (H : r = (Ok (txt "/tmp/tmp0.md"), snd r)) by (vm_compute; reflexivity).
  assert (H1 : r1 = (Ok (txt "/tmp/tmp0.md"), snd r1)) by (vm_compute; reflexivity).
  assert (H2 : r2 = (Ok (txt "/tmp/tmp0.md"), snd r2)) by (vm_compute; reflexivity).
  split; [simpl; lia|]. split; [simpl; lia|].
  split; [exact H|]. split; [exact H1|]. split; [exact H2|].
  apply (scrape_urls_batches (crawler := demo_crawler) (tmp := mock_tmp) [url_a] [url_b] st0 (snd r) (snd r1) (snd r2));
    [simpl; lia|simpl; lia|exact H|exact H1|exact H2].
Defined.


Lemma create_assistant_success_witness :
  let sc := @scrape_urls nat demo_crawler mock_tmp [url_a] st0 in
  let cr := create_assistant_and_vectorstore (W := nat) (client := demo_client)
              (txt "/tmp/tmp0.md") (snd sc) in
  cr = (Ok (txt "asst_0", txt "vs_1"), snd cr) /\
  exists a w1 d w2 status w3,
    @assistants_create nat demo_client qa_params (world (snd sc)) = Ok (a, w1) /\
    @vector_stores_create nat demo_client (txt "Scraped Content") w1 = Ok (txt "vs_1", w2) /\
    fs_lookup (txt "/tmp/tmp0.md") (files (snd sc)) = Some d /\
    @upload_and_poll nat demo_client (txt "vs_1") d w2 = Ok (status, w3) /\
    @assistants_update nat demo_client a [txt "vs_1"] w3 = Ok (txt "asst_0", world (snd cr)) /\
    files (snd cr) = files (snd sc) /\
    trace (snd cr) = trace (snd sc) ++ [AssistantsCreate; VectorStoresCreate;
                       FileBatchesUploadAndPoll (txt "vs_1"); AssistantsUpdate a [txt "vs_1"]].
Proof.
  intros sc cr.
  assert (H : cr = (Ok (txt "asst_0", txt "vs_1"), snd cr)) by (vm_compute; reflexivity).
  split; [exact H|]. exact (create_assistant_success _ _ _ _ _ H).
Defined.

Lemma scrape_and_upsert_success_witness :
  let up := scrape_and_upsert (W := nat) (client := demo_client) (crawler := demo_crawler)
              (tmp := mock_tmp) [url_a; url_b] st0 in
  let r := {| message_text := txt "Successfully scraped content from 2 URLs and created assistant and vector store.";
              assistant_id := txt "asst_0"; vector_store_id := txt "vs_1" |} in
  up = (Ok r, snd up) /\
  exists mds a w1 w2 status w3,
    Forall2 (fun url (md : text) => @crawler_run demo_crawler url = Ok md) [url_a; url_b] mds /\
    @assistants_create nat demo_client qa_params (world st0) = Ok (a, w1) /\
    @vector_stores_create nat demo_client (txt "Scraped Content") w1 =
      Ok (vector_store_id r, w2) /\
    @upload_and_poll nat demo_client (vector_store_id r) (join doc_separator (map clean mds)) w2 =
      Ok (status, w3) /\
    @assistants_update nat demo_client a [vector_store_id r] w3 =
      Ok (assistant_id r, world (snd up)) /\
    message_text r = txt "Successfully scraped content from " ++ show_nat (length [url_a; url_b]) ++
                     txt " URLs and created assistant and vector store." /\
    trace (snd up) = trace st0 ++ CrawlerWarmup :: map CrawlerRun [url_a; url_b] ++
                [AssistantsCreate; VectorStoresCreate;
                 FileBatchesUploadAndPoll (vector_store_id r);
                 AssistantsUpdate a [vector_store_id r]].
Proof.
  intros up r.
  assert (H : up = (Ok r, snd up)) by (vm_compute; reflexivity).
  split; [exact H|]. exact (scrape_and_upsert_success _ _ _ _ H).
Defined.



Lemma rag_call_sequence_witness :
  let ex := execute_rag_pipeline (W := nat) (client := demo_client)
              (txt "q") (txt "asst_0") (txt "vs_1") st0 in
  exists answer, ex = (Ok answer, snd ex) /\
  exists thread run value annotations,
    fst (fetch_answer (W := nat) (client := demo_client) (txt "q") (txt "asst_0") st0) =
      Ok (value, annotations) /\
    trace (snd ex) = trace st0 ++ [ThreadsCreate; RunsCreateAndPoll thread (txt "asst_0");
                                   MessagesList thread run] ++
                     map (fun c => FilesRetrieve (snd c)) (cited 0 annotations) /\
    files (snd ex) = files st0.
Proof.
  intros ex.
  assert (H : ex = (Ok (txt "A [0] B [0] C [2]" ++ nl ++ nl ++
                        txt "[0] f1.pdf" ++ nl ++ txt "[1] f2.pdf"), snd ex))
    by (vm_compute; reflexivity).
  eexists. split; [exact H|].
  exact (rag_call_sequence (client := demo_client) (txt "q") (txt "asst_0") (txt "vs_1")
           st0 (snd ex) _ H).
Defined.

Lemma rag_file_lookup_failure_aborts_witness :
  let fa := fetch_answer (W := nat) (client := missing_file_client) (txt "q") (txt "asst_0") st0 in
  fa = (Ok (txt "A X B", [cite (txt "X") (txt "f1")]), snd fa) /\
  In (cite (txt "X") (txt "f1")) [cite (txt "X") (txt "f1")] /\
  file_citation (cite (txt "X") (txt "f1")) = Some (txt "f1") /\
  (forall w : nat, @files_retrieve nat missing_file_client (txt "f1") w =
                   Err (Exception (txt "Error code: 404"))) /\
  exists e st', execute_rag_pipeline (W := nat) (client := missing_file_client)
                  (txt "q") (txt "asst_0") (txt "vs_1") st0 = (Err e, st').
Proof.
  intros fa.
  assert (H : fa = (Ok (txt "A X B", [cite (txt "X") (txt "f1")]), snd fa))
    by (vm_compute; reflexivity).
  assert (Hin : In (cite (txt "X") (txt "f1")) [cite (txt "X") (txt "f1")])
    by (simpl; auto).
  assert (Hr : forall w : nat, @files_retrieve nat missing_file_client (txt "f1") w =
                               Err (Exception (txt "Error code: 404")))
    by (intros w; reflexivity).
  split; [exact H|]. split; [exact Hin|]. split; [reflexivity|]. split; [exact Hr|].
  exact (rag_file_lookup_failure_aborts _ _ (txt "vs_1") _ _ _ _ _ _ _ H Hin eq_refl Hr).
Defined.

Lemma rag_empty_messages_witness :
  @threads_create nat failing_client (txt "q") 0 = Ok (txt "thread_0", 1) /\
  @runs_create_and_poll nat failing_client (txt "thread_0") (txt "asst_0") 1 =
    Ok (txt "run_0", 1) /\
  @messages_list nat failing_client (txt "thread_0") (txt "run_0") 1 = Ok ([], 1) /\
  execute_rag_pipeline (W := nat) (client := failing_client)
    (txt "q") (txt "asst_0") (txt "vs_1") st0 =
    (Err (Exception (txt "list index out of range")),
     mkState 1 [] ([] ++ [ThreadsCreate; RunsCreateAndPoll (txt "thread_0") (txt "asst_0");
                          MessagesList (txt "thread_0") (txt "run_0")])).
Proof.
  split; [reflexivity|]. split; [reflexivity|]. split; [reflexivity|].
  exact (rag_empty_messages (client := failing_client) (txt "q") (txt "asst_0") (txt "vs_1")
           st0 (txt "thread_0") (txt "run_0") 1 1 1 eq_refl eq_refl eq_refl).
Defined.

Lemma ask_question_queries_only_witness :
  let aq := ask_question (W := nat) (client := demo_client)
              (txt "q") (txt "asst_0") (txt "vs_1") st0 in
  aq = (fst aq, snd aq) /\
  exists new, trace (snd aq) = trace st0 ++ new /\ forallb is_query_call new = true /\
              files (snd aq) = files st0.
Proof.
  intros aq.
  assert (H : aq = (fst aq, snd aq)) by (vm_compute; reflexivity).
  split; [exact H|]. exact (ask_question_queries_only _ _ _ _ _ _ H).
Defined.
